(** * Testownik quiz page: session state, answer checking and continuity

    A shallow embedding of [src/pages/QuizPage.tsx].

    The page is a React function component.  Its [useState] cells and
    [useRef] cells are gathered in the record [State]; every callback of the
    component is a function from the state it reads to the state its setters
    produce, paired with the list of outward effects it performs, in program
    order (messages handed to [conn.send], local-storage writes, HTTP
    requests, PeerJS calls).  Console output and toasts are left out.

    A callback reads the state cells of the render that created it, while
    refs and the previous value handed to a functional updater are those of
    the moment it runs.  A callback that the page calls from its current
    render takes one state [s] for both.  The callbacks that
    [initiateContinuity], the closed-connection handler and the ping interval
    register are created once, by the mount effect: they take the render
    they close over as a separate argument [render], whose cells keep the
    values of [mountRender], and the live state as [s].

    JavaScript numbers that hold identifiers, counters and array indices are
    integers [Z]; where the code adds to a counter or a count, the sum is
    rounded as a double is ([jsAdd], [jsSub]).  [Math.random()] and
    [Date.now()] are explicit arguments.
    A [DataConnection] is the PeerJS object as a handler sees it when it
    runs: its [peer] identifier, its [open] flag, and a reference that stands
    for object identity ([conn !== exceptConn]). *)

From Stdlib Require Import ZArith List Bool Ascii String Lia Permutation.
Import ListNotations.
Local Open Scope Z_scope.

(** ** Data model *)

(** The interfaces [Question], [Quiz] and [Reoccurrence] are imported from
    [components/quiz/types.ts]; the records carry the fields the page
    accesses. *)

Record Answer := mkAnswer {
  answer : string;
  correct : bool
}.

Record Question := mkQuestion {
  q_id : Z;
  question : string;
  answers : list Answer;
  multiple : bool
}.

Record Quiz := mkQuiz {
  quiz_id : Z;
  title : string;
  version : Z;
  questions : list Question
}.

Record Reoccurrence := mkReoccurrence {
  r_id : Z;
  r_reoccurrences : Z
}.

Record UserSettings := mkUserSettings {
  sync_progress : bool;
  initial_reoccurrences : Z;
  wrong_answer_reoccurrences : Z
}.

Record Progress := mkProgress {
  current_question : Z;
  correct_answers_count : Z;
  wrong_answers_count : Z;
  study_time : Z;
  p_reoccurrences : list Reoccurrence
}.

Record DataConnection := mkConn {
  conn_ref : nat;
  peer : string;
  open : bool
}.

Record Peer := mkPeer {
  peer_open : bool;
  destroyed : bool
}.

(** ** Wire messages *)

Inductive PeerMessage :=
| initial_sync (startTime correctAnswersCount wrongAnswersCount : Z)
               (reoccurrences : list Reoccurrence)
| question_update (question : Question) (selectedAnswers : list Z)
| answer_checked
| ping
| pong
| unknown_type (tag : string).

(** ** Outward effects *)

Inductive Effect :=
| Send (conn : DataConnection) (data : PeerMessage)
| LocalStorageSet (key : string) (progress : Progress)
| LocalStorageRemove (key : string)
| ServerPost (progress : Progress)
| ServerDelete
| NewPeer (id : option string)
| Connect (peerId : string)
| ArmTimeout (conn : DataConnection) (ms : Z)
| CloseConn (conn : DataConnection).

(** ** Component state *)

Record State := mkState {
  quiz : option Quiz;
  userSettings : UserSettings;
  reoccurrences : list Reoccurrence;
  currentQuestion : option Question;
  selectedAnswers : list Z;
  questionChecked : bool;
  correctAnswersCount : Z;
  wrongAnswersCount : Z;
  isQuizFinished : bool;
  studyTime : Z;
  startTimeRef : Z;
  peerConnections : list DataConnection;
  isContinuityHost : bool;
  currentQuestionRef : option Question;
  reoccurrencesRef : list Reoccurrence;
  wrongAnswersCountRef : Z;
  correctAnswersCountRef : Z;
  peerRef : option Peer
}.

(** The setters returned by [useState], and assignments to [ref.current]. *)

Definition setReoccurrences (v : list Reoccurrence) (s : State) : State :=
  mkState (quiz s) (userSettings s) v (currentQuestion s)
    (selectedAnswers s) (questionChecked s) (correctAnswersCount s)
    (wrongAnswersCount s) (isQuizFinished s) (studyTime s) (startTimeRef s)
    (peerConnections s) (isContinuityHost s) (currentQuestionRef s)
    (reoccurrencesRef s) (wrongAnswersCountRef s) (correctAnswersCountRef s)
    (peerRef s).

Definition setCurrentQuestion (v : option Question) (s : State) : State :=
  mkState (quiz s) (userSettings s) (reoccurrences s) v
    (selectedAnswers s) (questionChecked s) (correctAnswersCount s)
    (wrongAnswersCount s) (isQuizFinished s) (studyTime s) (startTimeRef s)
    (peerConnections s) (isContinuityHost s) (currentQuestionRef s)
    (reoccurrencesRef s) (wrongAnswersCountRef s) (correctAnswersCountRef s)
    (peerRef s).

Definition setSelectedAnswers (v : list Z) (s : State) : State :=
  mkState (quiz s) (userSettings s) (reoccurrences s) (currentQuestion s)
    v (questionChecked s) (correctAnswersCount s)
    (wrongAnswersCount s) (isQuizFinished s) (studyTime s) (startTimeRef s)
    (peerConnections s) (isContinuityHost s) (currentQuestionRef s)
    (reoccurrencesRef s) (wrongAnswersCountRef s) (correctAnswersCountRef s)
    (peerRef s).

Definition setQuestionChecked (v : bool) (s : State) : State :=
  mkState (quiz s) (userSettings s) (reoccurrences s) (currentQuestion s)
    (selectedAnswers s) v (correctAnswersCount s)
    (wrongAnswersCount s) (isQuizFinished s) (studyTime s) (startTimeRef s)
    (peerConnections s) (isContinuityHost s) (currentQuestionRef s)
    (reoccurrencesRef s) (wrongAnswersCountRef s) (correctAnswersCountRef s)
    (peerRef s).

Definition setCorrectAnswersCount (v : Z) (s : State) : State :=
  mkState (quiz s) (userSettings s) (reoccurrences s) (currentQuestion s)
    (selectedAnswers s) (questionChecked s) v
    (wrongAnswersCount s) (isQuizFinished s) (studyTime s) (startTimeRef s)
    (peerConnections s) (isContinuityHost s) (currentQuestionRef s)
    (reoccurrencesRef s) (wrongAnswersCountRef s) (correctAnswersCountRef s)
    (peerRef s).

Definition setWrongAnswersCount (v : Z) (s : State) : State :=
  mkState (quiz s) (userSettings s) (reoccurrences s) (currentQuestion s)
    (selectedAnswers s) (questionChecked s) (correctAnswersCount s)
    v (isQuizFinished s) (studyTime s) (startTimeRef s)
    (peerConnections s) (isContinuityHost s) (currentQuestionRef s)
    (reoccurrencesRef s) (wrongAnswersCountRef s) (correctAnswersCountRef s)
    (peerRef s).

Definition setIsQuizFinished (v : bool) (s : State) : State :=
  mkState (quiz s) (userSettings s) (reoccurrences s) (currentQuestion s)
    (selectedAnswers s) (questionChecked s) (correctAnswersCount s)
    (wrongAnswersCount s) v (studyTime s) (startTimeRef s)
    (peerConnections s) (isContinuityHost s) (currentQuestionRef s)
    (reoccurrencesRef s) (wrongAnswersCountRef s) (correctAnswersCountRef s)
    (peerRef s).

Definition setStudyTime (v : Z) (s : State) : State :=
  mkState (quiz s) (userSettings s) (reoccurrences s) (currentQuestion s)
    (selectedAnswers s) (questionChecked s) (correctAnswersCount s)
    (wrongAnswersCount s) (isQuizFinished s) v (startTimeRef s)
    (peerConnections s) (isContinuityHost s) (currentQuestionRef s)
    (reoccurrencesRef s) (wrongAnswersCountRef s) (correctAnswersCountRef s)
    (peerRef s).

Definition set_startTimeRef (v : Z) (s : State) : State :=
  mkState (quiz s) (userSettings s) (reoccurrences s) (currentQuestion s)
    (selectedAnswers s) (questionChecked s) (correctAnswersCount s)
    (wrongAnswersCount s) (isQuizFinished s) (studyTime s) v
    (peerConnections s) (isContinuityHost s) (currentQuestionRef s)
    (reoccurrencesRef s) (wrongAnswersCountRef s) (correctAnswersCountRef s)
    (peerRef s).

Definition setPeerConnections (v : list DataConnection) (s : State) : State :=
  mkState (quiz s) (userSettings s) (reoccurrences s) (currentQuestion s)
    (selectedAnswers s) (questionChecked s) (correctAnswersCount s)
    (wrongAnswersCount s) (isQuizFinished s) (studyTime s) (startTimeRef s)
    v (isContinuityHost s) (currentQuestionRef s)
    (reoccurrencesRef s) (wrongAnswersCountRef s) (correctAnswersCountRef s)
    (peerRef s).

Definition setIsContinuityHost (v : bool) (s : State) : State :=
  mkState (quiz s) (userSettings s) (reoccurrences s) (currentQuestion s)
    (selectedAnswers s) (questionChecked s) (correctAnswersCount s)
    (wrongAnswersCount s) (isQuizFinished s) (studyTime s) (startTimeRef s)
    (peerConnections s) v (currentQuestionRef s)
    (reoccurrencesRef s) (wrongAnswersCountRef s) (correctAnswersCountRef s)
    (peerRef s).

Definition set_peerRef (v : option Peer) (s : State) : State :=
  mkState (quiz s) (userSettings s) (reoccurrences s) (currentQuestion s)
    (selectedAnswers s) (questionChecked s) (correctAnswersCount s)
    (wrongAnswersCount s) (isQuizFinished s) (studyTime s) (startTimeRef s)
    (peerConnections s) (isContinuityHost s) (currentQuestionRef s)
    (reoccurrencesRef s) (wrongAnswersCountRef s) (correctAnswersCountRef s)
    v.

(** The four [useEffect] hooks that mirror state cells into the refs read by
    the continuity callbacks (lines 172-191). *)
Definition mirrorRefs (s : State) : State :=
  mkState (quiz s) (userSettings s) (reoccurrences s) (currentQuestion s)
    (selectedAnswers s) (questionChecked s) (correctAnswersCount s)
    (wrongAnswersCount s) (isQuizFinished s) (studyTime s) (startTimeRef s)
    (peerConnections s) (isContinuityHost s) (currentQuestion s)
    (reoccurrences s) (wrongAnswersCount s) (correctAnswersCount s)
    (peerRef s).

(** The refs hold what the state cells hold. *)
Definition refs_mirrored (s : State) : Prop :=
  currentQuestionRef s = currentQuestion s /\
  reoccurrencesRef s = reoccurrences s /\
  wrongAnswersCountRef s = wrongAnswersCount s /\
  correctAnswersCountRef s = correctAnswersCount s.

(** The render of the mount: every [useState] cell has its initial value.
    The refs are not part of a render; their fields here are never read. *)
Definition mountRender : State :=
  mkState None (mkUserSettings false 1 1) [] None [] false 0 0 false 0
          0 [] false None [] 0 0 None.

(** ** Numbers *)

(** The integer-valued double nearest to the integer [n], ties going to the
    even significand; meant for magnitudes that a double can hold. *)
Definition roundToDouble (n : Z) : Z :=
  let a := Z.abs n in
  if a <=? 9007199254740992 then n
  else
    let e := Z.log2 a - 52 in
    let q := a / 2 ^ e in
    let rest := a mod 2 ^ e in
    let half := 2 ^ (e - 1) in
    let q' :=
      if rest <? half then q
      else if half <? rest then q + 1
      else if Z.even q then q else q + 1 in
    Z.sgn n * (q' * 2 ^ e).

(** [a + b] and [a - b] on numbers. *)
Definition jsAdd (a b : Z) : Z := roundToDouble (a + b).
Definition jsSub (a b : Z) : Z := roundToDouble (a - b).

Arguments roundToDouble : simpl never.
Arguments jsAdd : simpl never.
Arguments jsSub : simpl never.

(** [Number.isSafeInteger]. *)
Definition safeInteger (n : Z) : Prop :=
  - 9007199254740992 < n < 9007199254740992.

(** ** Randomness *)

(** One call of [pickRandomQuestion] draws [Math.random()] once for the
    index, a fraction [rand_num / rand_den] in the interval [0, 1), and lets
    [Array.prototype.sort] draw further values for its comparator;
    [sortRandom] is the reordering that sort ends with. *)
Record Random := mkRandom {
  rand_num : Z;
  rand_den : Z;
  sortRandom : list Answer -> list Answer
}.

Definition random_in_unit_interval (rng : Random) : Prop :=
  0 <= rand_num rng < rand_den rng.

(** ** Array helpers *)

(** [arr.map((x, idx) => f(x, idx))], counting from [idx]. *)
Fixpoint mapi_from {A B : Type} (f : A -> Z -> B) (idx : Z) (l : list A)
  : list B :=
  match l with
  | [] => []
  | x :: l' => f x idx :: mapi_from f (idx + 1) l'
  end.

Definition mapi {A B : Type} (f : A -> Z -> B) (l : list A) : list B :=
  mapi_from f 0 l.

(** [arr.includes(x)] on numbers. *)
Definition includes (l : list Z) (x : Z) : bool := existsb (Z.eqb x) l.

(** [`${quizId}_${userId}`.replace(/\//g, "")] *)
Fixpoint removeSlashes (str : string) : string :=
  match str with
  | EmptyString => EmptyString
  | String c rest =>
      if Ascii.eqb c "/"%char then removeSlashes rest
      else String c (removeSlashes rest)
  end.

Section Page.

(** The route parameter of the page. *)
Variable quizId : string.

Definition progressKey : string := (quizId ++ "_progress")%string.

Definition baseId (userId : string) : string :=
  removeSlashes (quizId ++ "_" ++ userId)%string.

(** ** Peer utilities (lines 875-896) *)

Definition sendToPeer (conn : DataConnection) (data : PeerMessage)
  : list Effect :=
  if open conn then [Send conn data] else [].

(** In the three functions that send to all peers, [s] is the render whose
    [peerConnections] cell the closure holds. *)
Definition sendToAllPeers (s : State) (data : PeerMessage) : list Effect :=
  flat_map (fun conn => sendToPeer conn data) (peerConnections s).

(** [conn !== exceptConn], where [exceptConn] may be [null]. *)
Definition differs (conn : DataConnection) (exceptConn : option DataConnection)
  : bool :=
  match exceptConn with
  | None => true
  | Some e => negb (Nat.eqb (conn_ref conn) (conn_ref e))
  end.

Definition sendToAllPeersExcept (s : State)
  (exceptConn : option DataConnection) (data : PeerMessage) : list Effect :=
  flat_map
    (fun conn => if differs conn exceptConn then sendToPeer conn data else [])
    (peerConnections s).

(** ** Progress store (lines 246-308) *)

Definition saveProgress (s : State) : list Effect :=
  match currentQuestion s with
  | None => []
  | Some q =>
      if isQuizFinished s then []
      else
        let progress :=
          mkProgress (q_id q) (correctAnswersCount s) (wrongAnswersCount s)
                     (studyTime s) (reoccurrences s) in
        LocalStorageSet progressKey progress ::
        (if sync_progress (userSettings s)
            && (isContinuityHost s
                || Nat.eqb (List.length (peerConnections s)) 0)
         then [ServerPost progress]
         else [])
  end.

(** [quiz.questions.map((q) => ({id: q.id, reoccurrences: initial}))] *)
Definition freshReoccurrences (quizData : Quiz) (settings : UserSettings)
  : list Reoccurrence :=
  map (fun q => mkReoccurrence (q_id q) (initial_reoccurrences settings))
      (questions quizData).

(** ** Question handling (lines 358-441) *)

(** [s] is the state the callback closes over, which the call to
    [saveProgress] reads; [st] is the pending state on which the setters
    act.  A caller with no earlier setter call passes the same state twice.
    The result is [None] when the index expression yields no array element
    and reading [.id] throws. *)
Definition pickRandomQuestion (rng : Random) (quizData : Quiz)
  (recurrencesData : list Reoccurrence) (s st : State)
  : option (State * list Effect * option Question) :=
  let available :=
    filter (fun r => 0 <? r_reoccurrences r) recurrencesData in
  if Nat.eqb (List.length available) 0 then
    Some (setCurrentQuestion None (setIsQuizFinished true st),
          saveProgress s, None)
  else
    let idx := (rand_num rng * Z.of_nat (List.length available)) / rand_den rng in
    match (if idx <? 0 then None else nth_error available (Z.to_nat idx)) with
    | None => None
    | Some r =>
        let randId := r_id r in
        match find (fun q => q_id q =? randId) (questions quizData) with
        | None => Some (setCurrentQuestion None st, [], None)
        | Some questionObj =>
            let sortedAnswers := sortRandom rng (answers questionObj) in
            let picked :=
              mkQuestion (q_id questionObj) (question questionObj)
                         sortedAnswers (multiple questionObj) in
            Some (setIsQuizFinished false
                    (setCurrentQuestion (Some picked) st),
                  [], Some picked)
        end
    end.

Definition correctIndices (q : Question) : list Z :=
  filter (fun idx => negb (idx =? -1))
         (mapi (fun ans idx => if correct ans then idx else -1) (answers q)).

Definition isCorrect (q : Question) (selected : list Z) : bool :=
  Nat.eqb (List.length (correctIndices q)) (List.length selected)
  && forallb (fun ci => includes selected ci) (correctIndices q).

(** [render] is the render the called closure belongs to: it supplies the
    cells [questionChecked], [selectedAnswers], [userSettings] and
    [peerConnections].  [s] is the state when the call runs: it supplies the
    ref and the previous values handed to the functional updaters, and takes
    the updates.  A call from the page itself has [render = s]. *)
Definition checkAnswer (remote : bool) (render s : State)
  : State * list Effect :=
  if questionChecked render then (s, [])
  else
    match currentQuestionRef s with
    | None => (s, [])
    | Some q =>
        let s1 :=
          if isCorrect q (selectedAnswers render) then
            setReoccurrences
              (map (fun r =>
                      if r_id r =? q_id q
                      then mkReoccurrence (r_id r)
                             (Z.max (jsSub (r_reoccurrences r) 1) 0)
                      else r)
                   (reoccurrences s))
              (setCorrectAnswersCount (jsAdd (correctAnswersCount s) 1) s)
          else
            setReoccurrences
              (map (fun r =>
                      if r_id r =? q_id q
                      then mkReoccurrence (r_id r)
                             (jsAdd (r_reoccurrences r)
                                (wrong_answer_reoccurrences
                                   (userSettings render)))
                      else r)
                   (reoccurrences s))
              (setWrongAnswersCount (jsAdd (wrongAnswersCount s) 1) s) in
        (setQuestionChecked true s1,
         if remote then [] else sendToAllPeers render answer_checked)
    end.

Definition nextQuestion (rng : Random) (s : State)
  : option (State * list Effect) :=
  match quiz s with
  | None => Some (s, [])
  | Some quizData =>
      match pickRandomQuestion rng quizData (reoccurrences s) s s with
      | None => None
      | Some (s1, effs, newQuestion) =>
          Some (setQuestionChecked false (setSelectedAnswers [] s1),
                effs ++
                match newQuestion with
                | Some q => sendToAllPeers s (question_update q [])
                | None => []
                end)
      end
  end.

(** [now] is the value of [Date.now()]. *)
Definition resetProgress (rng : Random) (now : Z) (s : State)
  : option (State * list Effect) :=
  let effs :=
    LocalStorageRemove progressKey ::
    (if sync_progress (userSettings s) then [ServerDelete] else []) in
  match quiz s with
  | None => Some (s, effs)
  | Some quizData =>
      let newReoccurrences := freshReoccurrences quizData (userSettings s) in
      let st :=
        set_startTimeRef now
          (setStudyTime 0
             (setIsQuizFinished false
                (setWrongAnswersCount 0
                   (setCorrectAnswersCount 0
                      (setReoccurrences newReoccurrences s))))) in
      match pickRandomQuestion rng quizData newReoccurrences s st with
      | None => None
      | Some (s', effs', _) => Some (s', effs ++ effs')
      end
  end.

(** ** Continuity: role negotiation (lines 623-729) *)

(** [userId] is [localStorage.getItem("user_id")].  The body registers a
    PeerJS peer under the rendezvous identifier; what follows happens in the
    callbacks of that peer. *)
Definition initiateContinuity (userId : option string) (s : State)
  : list Effect :=
  match peerRef s with
  | Some _ => []
  | None =>
      match userId with
      | None => []
      | Some u =>
          if String.eqb u "" then [] else [NewPeer (Some (baseId u))]
      end
  end.

(** [hostPeer.on("open", ...)] *)
Definition hostPeer_onOpen (hostPeer : Peer) (s : State) : State :=
  setIsContinuityHost true (set_peerRef (Some hostPeer) s).

(** [hostPeer.on("error", ...)] with [err.type === "unavailable-id"]. *)
Definition hostPeer_onUnavailableId (s : State) : State * list Effect :=
  (setIsContinuityHost false s, [NewPeer None]).

(** [connectToPeer]: the call to [thePeer.connect] is made at once when the
    peer is open, and is otherwise left to the peer's "open" event. *)
Definition connectToPeer (thePeer : Peer) (peerId : string) : list Effect :=
  if peer_open thePeer then [Connect peerId] else [].

(** How the promise returned by [connectToPeer] settles. *)
Inductive ConnectOutcome :=
| Resolved (newConn : DataConnection)
| Rejected
| Pending.

(** [conn.on("open", ...)] inside [connectToPeer]. *)
Definition connectToPeer_onOpen (conn : DataConnection) (s : State) : State :=
  setPeerConnections (peerConnections s ++ [conn]) s.

(** ** Continuity: host side (lines 731-786, 898-915) *)

Definition handlePeerConnectionAsHost (conn : DataConnection) (s : State)
  : State :=
  setPeerConnections (peerConnections s ++ [conn]) s.

(** [render] supplies the [selectedAnswers] cell; the other values are the
    arguments of the call. *)
Definition initialSyncToPeer (render : State) (conn : DataConnection)
  (currentQuestion : option Question) (reoccurrences : list Reoccurrence)
  (startTime wrongAnswersCount correctAnswersCount : Z) : list Effect :=
  match currentQuestion with
  | None => []
  | Some q =>
      sendToPeer conn
        (initial_sync startTime correctAnswersCount wrongAnswersCount
                      reoccurrences)
      ++ sendToPeer conn (question_update q (selectedAnswers render))
  end.

(** [conn.on("open", ...)] inside [handlePeerConnectionAsHost]: the refs are
    read from the live state [s]. *)
Definition handlePeerConnectionAsHost_onOpen (render : State)
  (conn : DataConnection) (s : State) : list Effect :=
  match currentQuestionRef s with
  | Some q =>
      initialSyncToPeer render conn (Some q) (reoccurrencesRef s)
                        (startTimeRef s)
                        (wrongAnswersCountRef s) (correctAnswersCountRef s)
  | None => []
  end.

Definition handlePeerDataAsHost (render : State) (conn : DataConnection)
  (data : PeerMessage) (s : State) : State * list Effect :=
  match data with
  | question_update q sel =>
      (setSelectedAnswers sel
         (setQuestionChecked false (setCurrentQuestion (Some q) s)),
       sendToAllPeersExcept render (Some conn) (question_update q sel))
  | answer_checked =>
      let (s', effs) := checkAnswer true render s in
      (s', effs ++ sendToAllPeersExcept render (Some conn) answer_checked)
  | ping => (s, sendToPeer conn pong)
  | _ => (s, [])
  end.

(** ** Continuity: client side (lines 809-848) *)

(** The result is [None] when [peerConnections[0]] is [undefined] and
    [sendToPeer] throws on reading its [open] property. *)
Definition handlePeerDataAsClient (render : State) (data : PeerMessage)
  (s : State) : option (State * list Effect) :=
  match data with
  | initial_sync startTime correctCount wrongCount reocc =>
      Some (setReoccurrences reocc
              (setWrongAnswersCount wrongCount
                 (setCorrectAnswersCount correctCount
                    (set_startTimeRef startTime s))),
            [])
  | question_update q sel =>
      Some (setSelectedAnswers sel
              (setQuestionChecked false (setCurrentQuestion (Some q) s)),
            [])
  | answer_checked => Some (checkAnswer true render s)
  | ping =>
      match nth_error (peerConnections render) 0 with
      | Some conn => Some (s, sendToPeer conn pong)
      | None => None
      end
  | _ => Some (s, [])
  end.

(** The messages a list of effects hands to connection [conn], in order. *)
Fixpoint sentTo (conn : DataConnection) (effs : list Effect)
  : list PeerMessage :=
  match effs with
  | [] => []
  | Send c data :: rest =>
      if Nat.eqb (conn_ref c) (conn_ref conn) then data :: sentTo conn rest
      else sentTo conn rest
  | _ :: rest => sentTo conn rest
  end.

(** A client receives messages one after the other. *)
Fixpoint receiveAll (render : State) (msgs : list PeerMessage) (s : State)
  : option State :=
  match msgs with
  | [] => Some s
  | data :: rest =>
      match handlePeerDataAsClient render data s with
      | Some (s', _) => receiveAll render rest s'
      | None => None
      end
  end.

(** ** Continuity: closed connections (lines 788-807) *)

(** [outcome] tells how the promise of the reconnection attempt settles.
    The filter is a functional updater on the live list, [peerRef] is read
    live, and [isContinuityHost] is the cell of [render]. *)
Definition handlePeerClose (userId : option string) (render : State)
  (conn : DataConnection) (outcome : ConnectOutcome) (s : State)
  : State * list Effect :=
  let s1 :=
    setPeerConnections
      (filter (fun c => open c && negb (String.eqb (peer c) (peer conn)))
              (peerConnections s))
      s in
  match peerRef s with
  | Some thePeer =>
      if negb (isContinuityHost render) && negb (destroyed thePeer) then
        let effs := connectToPeer thePeer (peer conn) in
        match outcome with
        | Resolved newConn => (connectToPeer_onOpen newConn s1, effs)
        | Rejected => (s1, effs ++ initiateContinuity userId s1)
        | Pending => (s1, effs)
        end
      else (s1, initiateContinuity userId s1)
  | None => (s1, initiateContinuity userId s1)
  end.

(** ** Liveness (lines 47-48, 850-866) *)

Definition PING_INTERVAL : Z := 5000.
Definition PING_TIMEOUT : Z := 15000.

(** One run of the interval callback: [render] supplies the
    [peerConnections] cell.  A timeout armed for a connection is cleared by
    a [pong] arriving on that connection before it fires. *)
Definition pingPeers (render : State) : list Effect :=
  flat_map
    (fun conn =>
       if open conn
       then sendToPeer conn ping ++ [ArmTimeout conn PING_TIMEOUT]
       else [])
    (peerConnections render).

(** The callback of a timeout that was not cleared. *)
Definition pingTimeout (conn : DataConnection) : list Effect :=
  [CloseConn conn].

End Page.

(** * Further operations of the page *)

Section Session.

Variable quizId : string.

(** ** Loading and applying saved progress (lines 131-144, 222-244, 327-356) *)


(** As for [pickRandomQuestion], [s] is the state the callback closes over
    and [st] the pending state. *)
Definition applyLoadedProgress (rng : Random) (quizData : Quiz)
  (savedProgress : Progress) (s st : State)
  : option (State * list Effect) :=
  let st1 :=
    setStudyTime (study_time savedProgress)
      (setReoccurrences (p_reoccurrences savedProgress)
         (setWrongAnswersCount (wrong_answers_count savedProgress)
            (setCorrectAnswersCount (correct_answers_count savedProgress)
               st))) in
  match find (fun q => q_id q =? current_question savedProgress)
             (questions quizData) with
  | None =>
      match pickRandomQuestion quizId rng quizData
              (p_reoccurrences savedProgress) s st1 with
      | None => None
      | Some (st2, effs, _) => Some (st2, effs)
      end
  | Some questionFromProgress =>
      let sortedAnswers := sortRandom rng (answers questionFromProgress) in
      let st2 :=
        setCurrentQuestion
          (Some (mkQuestion (q_id questionFromProgress)
                            (question questionFromProgress)
                            sortedAnswers
                            (multiple questionFromProgress)))
          st1 in
      let anyWithReoccurrences :=
        existsb (fun r => 0 <? r_reoccurrences r)
                (p_reoccurrences savedProgress) in
      Some (if anyWithReoccurrences then st2 else setIsQuizFinished true st2,
            [])
  end.

(** The part of the mount effect that follows [loadProgress]: [settings] is
    what [fetchUserSettings] returned. *)
Definition initializeProgress (rng : Random) (quizData : Quiz)
  (settings : UserSettings) (savedProgress : option Progress) (s st : State)
  : option (State * list Effect) :=
  let fresh :=
    let newReoccurrences := freshReoccurrences quizData settings in
    match pickRandomQuestion quizId rng quizData newReoccurrences s
            (setReoccurrences newReoccurrences st) with
    | None => None
    | Some (st', effs, _) => Some (st', effs)
    end in
  match savedProgress with
  | Some progress =>
      if negb (current_question progress =? 0)
      then applyLoadedProgress rng quizData progress s st
      else fresh
  | None => fresh
  end.

(** ** Study time (lines 452-455) *)

Definition updateStudyTime (now : Z) (s : State) : State :=
  setStudyTime ((now - startTimeRef s) / 1000) s.

(** ** The action button (lines 443-449) *)

Definition nextAction (rng : Random) (s : State)
  : option (State * list Effect) :=
  if questionChecked s then nextQuestion quizId rng s
  else Some (checkAnswer false s s).

(** ** The selection callback handed to the question card (lines 962-988) *)

Definition questionCard_setSelectedAnswers (newSelected : list Z) (s : State)
  : State * list Effect :=
  match currentQuestion s with
  | Some q =>
      if negb (multiple q) then
        match newSelected with
        | first :: _ =>
            (setSelectedAnswers [first] s,
             sendToAllPeers s (question_update q [first]))
        | [] => (setSelectedAnswers [] s, [])
        end
      else
        (setSelectedAnswers newSelected s,
         match newSelected with
         | [] => []
         | _ :: _ => sendToAllPeers s (question_update q newSelected)
         end)
  | None => (setSelectedAnswers newSelected s, [])
  end.

End Session.

(** What a device does with a message, as host (from connection [conn]) or
    as client; [render] is the render of the registered handler. *)
Definition receive (asHost : bool) (render : State) (conn : DataConnection)
  (data : PeerMessage) (s : State) : option State :=
  if asHost then Some (fst (handlePeerDataAsHost render conn data s))
  else option_map fst (handlePeerDataAsClient render data s).

(** * Vocabulary of the properties *)

(** ** Answer evaluation *)

(** Index [i] is flagged correct in the question definition. *)
Definition flaggedCorrect (q : Question) (i : Z) : Prop :=
  0 <= i /\
  exists a, nth_error (answers q) (Z.to_nat i) = Some a /\ correct a = true.

(** The selection and the flagged indices are the same set. *)
Definition exactSelection (q : Question) (selected : list Z) : Prop :=
  forall i, In i selected <-> flaggedCorrect q i.

(** [new] is [old] with the count of every entry of question [qid] replaced
    by [f] of it, and nothing else touched. *)
Definition countsUpdated (f : Z -> Z) (qid : Z)
  (old new : list Reoccurrence) : Prop :=
  List.length new = List.length old /\
  forall i r, nth_error old i = Some r ->
    exists r', nth_error new i = Some r' /\
      (r_id r = qid ->
         r_id r' = r_id r /\ r_reoccurrences r' = f (r_reoccurrences r)) /\
      (r_id r <> qid -> r' = r).

(** Both counters are safe integers. *)
Definition safeCounters (s : State) : Prop :=
  safeInteger (correctAnswersCount s) /\ safeInteger (wrongAnswersCount s).

(** Counters and counts are safe integers, and so is every count with
    [penalty] added. *)
Definition safeScore (penalty : Z) (s : State) : Prop :=
  safeCounters s /\
  Forall (fun r => safeInteger (r_reoccurrences r) /\
                   safeInteger (r_reoccurrences r + penalty))
         (reoccurrences s).

(** The evaluation rule for a check that the page itself makes at state
    [s] with current question [q]. *)
Definition evaluationRule (s : State) (q : Question) : Prop :=
  let s' := fst (checkAnswer false s s) in
  questionChecked s' = true /\
  (exactSelection q (selectedAnswers s) ->
     correctAnswersCount s' = correctAnswersCount s + 1 /\
     wrongAnswersCount s' = wrongAnswersCount s /\
     countsUpdated (fun n => Z.max (n - 1) 0) (q_id q)
                   (reoccurrences s) (reoccurrences s')) /\
  (~ exactSelection q (selectedAnswers s) ->
     wrongAnswersCount s' = wrongAnswersCount s + 1 /\
     correctAnswersCount s' = correctAnswersCount s /\
     countsUpdated
       (fun n => n + wrong_answer_reoccurrences (userSettings s)) (q_id q)
       (reoccurrences s) (reoccurrences s')).

(** ** Synchronisation, relaying, counts and saving *)

(** The fields the claim says a second [initial_sync] leaves alone. *)
Definition sameSyncedFields (a b : State) : Prop :=
  correctAnswersCount a = correctAnswersCount b /\
  wrongAnswersCount a = wrongAnswersCount b /\
  reoccurrences a = reoccurrences b /\
  startTimeRef a = startTimeRef b.

(** The message kinds a host relays. *)
Definition relayed (m : PeerMessage) : Prop :=
  (exists q sel, m = question_update q sel) \/ m = answer_checked.

(** No count of the list is below zero. *)
Definition countsNonNegative (l : list Reoccurrence) : Prop :=
  Forall (fun r => 0 <= r_reoccurrences r) l.

(** Every operation that writes the reoccurrence list of [s] leaves a list
    of non-negative counts: a check from the current render, a check from a
    closure of any render whose penalty is not negative, a reset, a fresh
    list. *)
Definition staysNonNegative (quizId : string) (s : State) : Prop :=
  (forall remote,
     countsNonNegative (reoccurrences (fst (checkAnswer remote s s)))) /\
  (forall remote render,
     0 <= wrong_answer_reoccurrences (userSettings render) ->
     countsNonNegative
       (reoccurrences (fst (checkAnswer remote render s)))) /\
  (forall rng now s' effs,
     resetProgress quizId rng now s = Some (s', effs) ->
     countsNonNegative (reoccurrences s')) /\
  (forall quizData,
     countsNonNegative (freshReoccurrences quizData (userSettings s))).

(** No connection of the list is open. *)
Definition noOpenConnection (s : State) : Prop :=
  forall c, In c (peerConnections s) -> open c = false.

(** ** Replicas, identifiers, untouched cells *)

(** The string contains the character [/]. *)
Definition hasSlash (str : string) : Prop :=
  In "/"%char (list_ascii_of_string str).

(** The two counters and the reoccurrence list are the same in both
    states. *)
Definition sameScore (a b : State) : Prop :=
  correctAnswersCount a = correctAnswersCount b /\
  wrongAnswersCount a = wrongAnswersCount b /\
  reoccurrences a = reoccurrences b.

(** The cells that no incoming message may touch are the same in both
    states. *)
Definition sameSurroundings (a b : State) : Prop :=
  quiz a = quiz b /\
  userSettings a = userSettings b /\
  isQuizFinished a = isQuizFinished b /\
  studyTime a = studyTime b /\
  peerConnections a = peerConnections b /\
  isContinuityHost a = isContinuityHost b /\
  peerRef a = peerRef b.

(** The number of answers a check adds to the two counters: the checked
    flag is the cell of [render], the question the live ref. *)
Definition answersCounted (render s : State) : Z :=
  if questionChecked render then 0
  else match currentQuestionRef s with Some _ => 1 | None => 0 end.

(** [q] is the quiz question [q0] with its answers put in the order
    [order]. *)
Definition presents (order : list Answer -> list Answer) (q q0 : Question)
  : Prop :=
  q_id q = q_id q0 /\ question q = question q0 /\
  multiple q = multiple q0 /\ answers q = order (answers q0).

(** ** Sample data *)

Module Sample.

Definition settings : UserSettings := mkUserSettings true 1 1.

(** Question 1: the first of two answers is the correct one. *)
Definition q1 : Question :=
  mkQuestion 1 "first" [mkAnswer "yes" true; mkAnswer "no" false] false.

(** Question 2: answers 0 and 2 are correct. *)
Definition q2 : Question :=
  mkQuestion 2 "second"
    [mkAnswer "a" true; mkAnswer "b" false; mkAnswer "c" true] true.

Definition theQuiz : Quiz := mkQuiz 7 "sample" 1 [q1; q2].

Definition hostConn : DataConnection := mkConn 0 "quiz_user" true.
Definition connA : DataConnection := mkConn 1 "device-a" true.
Definition connB : DataConnection := mkConn 2 "device-b" true.
Definition connC : DataConnection := mkConn 3 "device-c" true.

(** Question 1 is current, answer 0 is selected, nothing checked yet. *)
Definition session : State :=
  mkState (Some theQuiz) settings
    [mkReoccurrence 1 1; mkReoccurrence 2 1]
    (Some q1) [0] false 0 0 false 12 1000
    [] false
    (Some q1) [mkReoccurrence 1 1; mkReoccurrence 2 1] 0 0
    None.

(** The same session with answer 0 listed twice in the selection. *)
Definition sessionRepeated : State := setSelectedAnswers [0; 0] session.

(** The same session with a negative penalty configured and the incorrect
    answer selected. *)
Definition sessionNegativePenalty : State :=
  mkState (Some theQuiz) (mkUserSettings true 1 (-5))
    [mkReoccurrence 1 1; mkReoccurrence 2 1]
    (Some q1) [1] false 0 0 false 12 1000
    [] false
    (Some q1) [mkReoccurrence 1 1; mkReoccurrence 2 1] 0 0
    None.

(** A host with three clients. *)
Definition host : State :=
  setIsContinuityHost true
    (set_peerRef (Some (mkPeer true false))
       (setPeerConnections [connA; connB; connC] session)).

(** A client connected to the host. *)
Definition client : State :=
  set_peerRef (Some (mkPeer true false))
    (setPeerConnections [hostConn] session).

Definition rng0 : Random := mkRandom 0 1 (fun l => l).

(** The host after it has checked its answer itself. *)
Definition hostChecked : State := fst (checkAnswer false host host).

(** A host whose correct-answer counter has reached 2^53. *)
Definition hostAtLimit : State :=
  setCorrectAnswersCount 9007199254740992 host.

End Sample.

(** * Properties *)

(** ** Answer evaluation: auxiliary facts *)

Lemma mapi_from_flagged (l : list Answer) : forall k i,
  0 <= k ->
  In i (filter (fun idx => negb (idx =? -1))
          (mapi_from (fun ans idx => if correct ans then idx else -1) k l))
  <-> k <= i /\
      exists a, nth_error l (Z.to_nat (i - k)) = Some a /\ correct a = true.
Proof.
  induction l as [|x l IH]; intros k i Hk; simpl.
  - split; [tauto|]. intros [_ [a [H _]]].
    destruct (Z.to_nat (i - k)); discriminate.
  - assert (Hstep : forall j, k + 1 <= j ->
              Z.to_nat (j - k) = S (Z.to_nat (j - (k + 1)))) by (intros; lia).
    destruct (correct x) eqn:Hx.
    + replace (negb (k =? -1)) with true
        by (symmetry; apply negb_true_iff, Z.eqb_neq; lia).
      simpl. rewrite IH by lia. split.
      * intros [<- | [Hle [a Ha]]].
        -- split; [lia|]. exists x. rewrite Z.sub_diag. simpl. auto.
        -- split; [lia|]. exists a. rewrite Hstep by lia. exact Ha.
      * intros [Hle [a [Hn Ha]]].
        destruct (Z.eq_dec k i) as [->|Hne]; [now left|right].
        split; [lia|]. exists a. rewrite Hstep in Hn by lia. auto.
    + simpl. rewrite IH by lia. split.
      * intros [Hle [a Ha]]. split; [lia|]. exists a.
        rewrite Hstep by lia. exact Ha.
      * intros [Hle [a [Hn Ha]]].
        destruct (Z.eq_dec k i) as [->|Hne].
        -- rewrite Z.sub_diag in Hn. simpl in Hn. congruence.
        -- split; [lia|]. exists a. rewrite Hstep in Hn by lia. auto.
Qed.

Lemma mapi_from_NoDup (l : list Answer) : forall k,
  0 <= k ->
  NoDup (filter (fun idx => negb (idx =? -1))
           (mapi_from (fun ans idx => if correct ans then idx else -1) k l)).
Proof.
  induction l as [|x l IH]; intros k Hk; simpl; [constructor|].
  destruct (correct x).
  - replace (negb (k =? -1)) with true
      by (symmetry; apply negb_true_iff, Z.eqb_neq; lia).
    constructor; [|apply IH; lia].
    rewrite mapi_from_flagged by lia. lia.
  - simpl. apply IH. lia.
Qed.

Lemma correctIndices_flagged (q : Question) (i : Z) :
  In i (correctIndices q) <-> flaggedCorrect q i.
Proof.
  unfold correctIndices, mapi, flaggedCorrect.
  rewrite mapi_from_flagged by lia. now rewrite Z.sub_0_r.
Qed.

Lemma correctIndices_NoDup (q : Question) : NoDup (correctIndices q).
Proof. apply mapi_from_NoDup. lia. Qed.

Lemma includes_In (l : list Z) (x : Z) : includes l x = true <-> In x l.
Proof.
  unfold includes. rewrite existsb_exists. split.
  - intros [y [Hy Heq]]. apply Z.eqb_eq in Heq. now subst.
  - intros H. exists x. split; [exact H | apply Z.eqb_refl].
Qed.

Lemma isCorrect_spec (q : Question) (selected : list Z) :
  isCorrect q selected = true <->
  List.length (correctIndices q) = List.length selected /\
  incl (correctIndices q) selected.
Proof.
  unfold isCorrect. rewrite andb_true_iff, Nat.eqb_eq, forallb_forall.
  unfold incl. split; intros [Hlen Hall]; split; auto; intros i Hi.
  - apply includes_In. auto.
  - apply includes_In. auto.
Qed.

(** A correct verdict always means the two index sets coincide. *)
Lemma isCorrect_exactSelection (q : Question) (selected : list Z) :
  isCorrect q selected = true -> exactSelection q selected.
Proof.
  rewrite isCorrect_spec. intros [Hlen Hincl] i.
  rewrite <- correctIndices_flagged. split; [|apply Hincl].
  apply (NoDup_length_incl (correctIndices_NoDup q)); [lia | exact Hincl].
Qed.

(** The converse needs a selection that lists no index twice. *)
Lemma exactSelection_isCorrect (q : Question) (selected : list Z) :
  NoDup selected -> exactSelection q selected -> isCorrect q selected = true.
Proof.
  intros Hnd Hex. apply isCorrect_spec.
  assert (H1 : incl (correctIndices q) selected).
  { intros i Hi. apply Hex, correctIndices_flagged, Hi. }
  assert (H2 : incl selected (correctIndices q)).
  { intros i Hi. apply correctIndices_flagged, Hex, Hi. }
  split; [|exact H1].
  apply Nat.le_antisymm.
  - apply NoDup_incl_length; [apply correctIndices_NoDup | exact H1].
  - apply NoDup_incl_length; [exact Hnd | exact H2].
Qed.

Lemma map_countsUpdated (f : Z -> Z) (qid : Z) (old : list Reoccurrence) :
  countsUpdated f qid old
    (map (fun r => if r_id r =? qid
                   then mkReoccurrence (r_id r) (f (r_reoccurrences r))
                   else r) old).
Proof.
  split; [apply length_map|].
  intros i r Hr. rewrite nth_error_map, Hr. simpl.
  eexists. split; [reflexivity|].
  destruct (Z.eqb_spec (r_id r) qid); split; intros; simpl; auto; congruence.
Qed.

(** ** Numbers: auxiliary facts *)

Lemma roundToDouble_exact (n : Z) :
  - 9007199254740992 <= n <= 9007199254740992 -> roundToDouble n = n.
Proof.
  intros H. unfold roundToDouble.
  destruct (Z.leb_spec (Z.abs n) 9007199254740992); [reflexivity | lia].
Qed.

Lemma roundToDouble_nonneg (n : Z) : 0 <= n -> 0 <= roundToDouble n.
Proof.
  intros H. unfold roundToDouble.
  destruct (Z.leb_spec (Z.abs n) 9007199254740992) as [|Hbig]; [exact H|].
  rewrite Z.sgn_pos by lia. rewrite Z.mul_1_l.
  set (a := Z.abs n). set (e := Z.log2 a - 52).
  assert (Hlog : 53 <= Z.log2 a).
  { change 53 with (Z.log2 9007199254740992).
    apply Z.log2_le_mono. unfold a. lia. }
  assert (He : 0 < 2 ^ e) by (apply Z.pow_pos_nonneg; unfold e; lia).
  assert (Hq : 0 <= a / 2 ^ e) by (apply Z.div_pos; unfold a; lia).
  apply Z.mul_nonneg_nonneg; [|lia].
  destruct (_ <? _); [exact Hq|].
  destruct (_ <? _); [lia|].
  destruct (Z.even _); lia.
Qed.

Lemma jsAdd_exact (a b : Z) :
  - 9007199254740992 <= a + b <= 9007199254740992 -> jsAdd a b = a + b.
Proof. apply roundToDouble_exact. Qed.

Lemma jsSub_exact (a b : Z) :
  - 9007199254740992 <= a - b <= 9007199254740992 -> jsSub a b = a - b.
Proof. apply roundToDouble_exact. Qed.

Lemma jsAdd_one (a : Z) : safeInteger a -> jsAdd a 1 = a + 1.
Proof. unfold safeInteger. intros H. apply jsAdd_exact. lia. Qed.

(** At 2^53 adding one changes nothing. *)
Lemma jsAdd_at_limit : jsAdd 9007199254740992 1 = 9007199254740992.
Proof. reflexivity. Qed.

Lemma map_countsUpdated_ext (f g : Z -> Z) (qid : Z)
  (old : list Reoccurrence) :
  (forall r, In r old -> f (r_reoccurrences r) = g (r_reoccurrences r)) ->
  countsUpdated g qid old
    (map (fun r => if r_id r =? qid
                   then mkReoccurrence (r_id r) (f (r_reoccurrences r))
                   else r) old).
Proof.
  intros Hfg. split; [apply length_map|].
  intros i r Hr. rewrite nth_error_map, Hr. simpl.
  eexists. split; [reflexivity|].
  pose proof (Hfg r (nth_error_In _ _ Hr)) as Heq.
  destruct (Z.eqb_spec (r_id r) qid); split; intros; simpl; auto;
    congruence.
Qed.

(** What a check does to the state, by the verdict. *)
Lemma checkAnswer_takes_place (remote : bool) (render s : State)
  (q : Question) :
  questionChecked render = false ->
  currentQuestionRef s = Some q ->
  fst (checkAnswer remote render s)
  = setQuestionChecked true
      (if isCorrect q (selectedAnswers render) then
         setReoccurrences
           (map (fun r =>
                   if r_id r =? q_id q
                   then mkReoccurrence (r_id r)
                          (Z.max (jsSub (r_reoccurrences r) 1) 0)
                   else r)
                (reoccurrences s))
           (setCorrectAnswersCount (jsAdd (correctAnswersCount s) 1) s)
       else
         setReoccurrences
           (map (fun r =>
                   if r_id r =? q_id q
                   then mkReoccurrence (r_id r)
                          (jsAdd (r_reoccurrences r)
                             (wrong_answer_reoccurrences
                                (userSettings render)))
                   else r)
                (reoccurrences s))
           (setWrongAnswersCount (jsAdd (wrongAnswersCount s) 1) s)).
Proof. intros Hc Hq. unfold checkAnswer. now rewrite Hc, Hq. Qed.

Lemma checkAnswer_skipped (remote : bool) (render s : State) :
  questionChecked render = true \/ currentQuestionRef s = None ->
  checkAnswer remote render s = (s, []).
Proof.
  unfold checkAnswer. intros [H|H]; rewrite H; [reflexivity|].
  now destruct (questionChecked render).
Qed.

(** The verdict, counters and counts a check leaves, when the numbers are
    safe integers. *)
Lemma checkAnswer_outcome (remote : bool) (render s : State) (q : Question) :
  questionChecked render = false ->
  currentQuestionRef s = Some q ->
  safeScore (wrong_answer_reoccurrences (userSettings render)) s ->
  questionChecked (fst (checkAnswer remote render s)) = true /\
  (isCorrect q (selectedAnswers render) = true ->
     correctAnswersCount (fst (checkAnswer remote render s))
       = correctAnswersCount s + 1 /\
     wrongAnswersCount (fst (checkAnswer remote render s))
       = wrongAnswersCount s /\
     countsUpdated (fun n => Z.max (n - 1) 0) (q_id q) (reoccurrences s)
                   (reoccurrences (fst (checkAnswer remote render s)))) /\
  (isCorrect q (selectedAnswers render) = false ->
     wrongAnswersCount (fst (checkAnswer remote render s))
       = wrongAnswersCount s + 1 /\
     correctAnswersCount (fst (checkAnswer remote render s))
       = correctAnswersCount s /\
     countsUpdated
       (fun n => n + wrong_answer_reoccurrences (userSettings render))
       (q_id q) (reoccurrences s)
       (reoccurrences (fst (checkAnswer remote render s)))).
Proof.
  intros Hc Hq ((Hsc & Hsw) & Hall).
  rewrite (checkAnswer_takes_place remote render s q Hc Hq).
  rewrite Forall_forall in Hall.
  destruct (isCorrect q (selectedAnswers render)); simpl.
  - split; [reflexivity|]. split; [|discriminate]. intros _.
    split; [now apply jsAdd_one|]. split; [reflexivity|].
    apply (map_countsUpdated_ext
             (fun n => Z.max (jsSub n 1) 0) (fun n => Z.max (n - 1) 0)).
    intros r Hr. destruct (Hall r Hr) as [Hsafe _]. unfold safeInteger in Hsafe.
    rewrite jsSub_exact by lia. reflexivity.
  - split; [reflexivity|]. split; [discriminate|]. intros _.
    split; [now apply jsAdd_one|]. split; [reflexivity|].
    apply (map_countsUpdated_ext
             (fun n => jsAdd n (wrong_answer_reoccurrences
                                  (userSettings render)))
             (fun n => n + wrong_answer_reoccurrences
                            (userSettings render))).
    intros r Hr. destruct (Hall r Hr) as [_ Hsafe]. unfold safeInteger in Hsafe.
    apply jsAdd_exact. lia.
Qed.

(** ** C1: the answer-evaluation rule *)

(** C1, as amended.  For a check that the page itself makes, on a session
    state with an unchecked current question whose selection lists no index
    twice and whose counters and counts are safe integers, [checkAnswer]
    counts the question as correct exactly when the selected indices and the
    indices flagged correct are the same set.  When correct,
    [correctAnswersCount] grows by one and the count of that question drops
    by one, not below zero; when incorrect, [wrongAnswersCount] grows by one
    and the count of that question grows by [wrong_answer_reoccurrences].
    Entries of other questions stay as they are. *)
Theorem checkAnswer_evaluationRule (s : State) (q : Question) :
  questionChecked s = false ->
  currentQuestionRef s = Some q ->
  NoDup (selectedAnswers s) ->
  safeScore (wrong_answer_reoccurrences (userSettings s)) s ->
  evaluationRule s q.
Proof.
  intros Hc Hq Hnd Hsafe. unfold evaluationRule.
  destruct (checkAnswer_outcome false s s q Hc Hq Hsafe)
    as (Hflag & Hyes & Hno).
  split; [exact Hflag|].
  destruct (isCorrect q (selectedAnswers s)) eqn:E.
  - split; [intros _; now apply Hyes|].
    intros Hne. exfalso. apply Hne. now apply isCorrect_exactSelection.
  - split; [|intros _; now apply Hno].
    intros Hex. apply exactSelection_isCorrect in Hex; [congruence|exact Hnd].
Qed.

Lemma checkAnswer_evaluationRule_witness :
  questionChecked Sample.session = false /\
  currentQuestionRef Sample.session = Some Sample.q1 /\
  NoDup (selectedAnswers Sample.session) /\
  safeScore (wrong_answer_reoccurrences (userSettings Sample.session))
            Sample.session /\
  evaluationRule Sample.session Sample.q1.
Proof.
  assert (Hnd : NoDup (selectedAnswers Sample.session)).
  { simpl. constructor; [simpl; tauto | constructor]. }
  assert (Hsafe : safeScore
                    (wrong_answer_reoccurrences (userSettings Sample.session))
                    Sample.session).
  { unfold safeScore, safeCounters, safeInteger. simpl.
    split; [lia|]. repeat constructor; simpl; lia. }
  split; [reflexivity|]. split; [reflexivity|]. split; [exact Hnd|].
  split; [exact Hsafe|].
  apply (checkAnswer_evaluationRule Sample.session Sample.q1);
    [reflexivity | reflexivity | exact Hnd | exact Hsafe].
Defined.

(** C1 as stated fails: with the selection [0; 0] on a question whose only
    correct answer is answer 0, the two index sets are equal and the answer
    is still counted as wrong. *)
Lemma checkAnswer_repeated_selection_counterexample :
  questionChecked Sample.sessionRepeated = false /\
  currentQuestionRef Sample.sessionRepeated = Some Sample.q1 /\
  exactSelection Sample.q1 (selectedAnswers Sample.sessionRepeated) /\
  wrongAnswersCount
    (fst (checkAnswer false Sample.sessionRepeated Sample.sessionRepeated))
    = 1 /\
  ~ evaluationRule Sample.sessionRepeated Sample.q1.
Proof.
  assert (Hex : exactSelection Sample.q1
                  (selectedAnswers Sample.sessionRepeated)).
  { intros i. rewrite <- correctIndices_flagged. simpl. tauto. }
  split; [reflexivity|]. split; [reflexivity|]. split; [exact Hex|].
  split; [reflexivity|].
  intros [_ [Hyes _]]. specialize (Hyes Hex).
  destruct Hyes as [Hcount _]. vm_compute in Hcount. discriminate.
Qed.

(** The rule also stops at the largest safe integer: a counter that has
    reached 2^53 is left where it is by a correct answer. *)
Lemma checkAnswer_counter_at_limit :
  questionChecked Sample.hostAtLimit = false /\
  isCorrect Sample.q1 (selectedAnswers Sample.hostAtLimit) = true /\
  correctAnswersCount
    (fst (checkAnswer false Sample.hostAtLimit Sample.hostAtLimit))
  = correctAnswersCount Sample.hostAtLimit.
Proof. repeat split. Qed.

(** ** C6: checking twice *)

Lemma receive_answer_checked (asHost : bool) (render : State)
  (conn : DataConnection) (s : State) :
  receive asHost render conn answer_checked s
  = Some (fst (checkAnswer true render s)).
Proof.
  unfold receive. destruct asHost; simpl; [|reflexivity].
  now destruct (checkAnswer true render s).
Qed.

(** C6, what the code does.  A second check that the page itself makes
    finds the checked flag set and changes nothing.  A check triggered by an
    [answer_checked] message runs in the handler registered by the mount
    effect, whose [questionChecked] cell is still unset: on a question that
    is already checked it counts one more answer, as host and as client. *)
Theorem remote_check_counts_again (asHost : bool) (render : State)
  (conn : DataConnection) (s : State) (q : Question) :
  questionChecked render = false ->
  questionChecked s = true ->
  currentQuestionRef s = Some q ->
  safeCounters s ->
  checkAnswer false s s = (s, []) /\
  exists s',
    receive asHost render conn answer_checked s = Some s' /\
    correctAnswersCount s' + wrongAnswersCount s'
      = correctAnswersCount s + wrongAnswersCount s + 1.
Proof.
  intros Hr Hs Hq (Hsc & Hsw).
  split; [apply checkAnswer_skipped; now left|].
  rewrite receive_answer_checked. eexists. split; [reflexivity|].
  rewrite (checkAnswer_takes_place true render s q Hr Hq).
  destruct (isCorrect q (selectedAnswers render)); simpl;
    (rewrite jsAdd_one by assumption); lia.
Qed.

Lemma remote_check_counts_again_witness :
  questionChecked Sample.hostChecked = true /\
  correctAnswersCount Sample.hostChecked = 1 /\
  wrongAnswersCount Sample.hostChecked = 0 /\
  checkAnswer false Sample.hostChecked Sample.hostChecked
    = (Sample.hostChecked, []) /\
  exists s',
    receive true mountRender Sample.connA answer_checked Sample.hostChecked
      = Some s' /\
    correctAnswersCount s' + wrongAnswersCount s' = 2.
Proof.
  assert (Hsafe : safeCounters Sample.hostChecked).
  { unfold safeCounters, safeInteger. repeat split. }
  split; [reflexivity|]. split; [reflexivity|]. split; [reflexivity|].
  exact (remote_check_counts_again true mountRender Sample.connA
           Sample.hostChecked Sample.q1 eq_refl eq_refl eq_refl Hsafe).
Defined.

(** ** C2: the two-message sync sequence *)

Lemma mirrorRefs_mirrored (s : State) : refs_mirrored (mirrorRefs s).
Proof. repeat split. Qed.

(** C2, what the code does.  When a client connection opens on a host that
    has a current question, the host hands to that connection an
    [initial_sync] message with its start time, its two counters and its
    reoccurrence list, and right after it a [question_update] message with
    the current question, and nothing else.  A client that receives them in
    order ends with the host's counters, reoccurrence list, start time and
    current question, the question being unchecked.  The selection the
    message carries is the [selectedAnswers] cell of the render that
    registered the callback, not the host's live selection. *)
Theorem initial_sync_round_trip (render clientRender : State)
  (conn : DataConnection) (host client : State) (q : Question) :
  open conn = true ->
  currentQuestion host = Some q ->
  refs_mirrored host ->
  handlePeerConnectionAsHost_onOpen render conn host
    = [Send conn (initial_sync (startTimeRef host) (correctAnswersCount host)
                               (wrongAnswersCount host) (reoccurrences host));
       Send conn (question_update q (selectedAnswers render))] /\
  exists client',
    receiveAll clientRender
      (sentTo conn (handlePeerConnectionAsHost_onOpen render conn host))
      client = Some client' /\
    correctAnswersCount client' = correctAnswersCount host /\
    wrongAnswersCount client' = wrongAnswersCount host /\
    reoccurrences client' = reoccurrences host /\
    currentQuestion client' = currentQuestion host /\
    startTimeRef client' = startTimeRef host /\
    selectedAnswers client' = selectedAnswers render /\
    questionChecked client' = false.
Proof.
  intros Hopen Hq (Hrq & Hrr & Hrw & Hrc).
  assert (Hsent : handlePeerConnectionAsHost_onOpen render conn host
    = [Send conn (initial_sync (startTimeRef host) (correctAnswersCount host)
                               (wrongAnswersCount host) (reoccurrences host));
       Send conn (question_update q (selectedAnswers render))]).
  { unfold handlePeerConnectionAsHost_onOpen, initialSyncToPeer, sendToPeer.
    rewrite Hrq, Hq, Hopen, Hrr, Hrw, Hrc. reflexivity. }
  split; [exact Hsent|]. rewrite Hsent. simpl.
  rewrite Nat.eqb_refl. simpl.
  eexists. split; [reflexivity|]. simpl. rewrite Hq.
  repeat split; reflexivity.
Qed.

Lemma initial_sync_round_trip_witness :
  open Sample.connA = true /\
  currentQuestion Sample.host = Some Sample.q1 /\
  refs_mirrored Sample.host /\
  selectedAnswers Sample.host = [0] /\
  handlePeerConnectionAsHost_onOpen mountRender Sample.connA Sample.host
    = [Send Sample.connA
         (initial_sync 1000 0 0 [mkReoccurrence 1 1; mkReoccurrence 2 1]);
       Send Sample.connA (question_update Sample.q1 [])] /\
  exists client',
    receiveAll mountRender
      (sentTo Sample.connA
         (handlePeerConnectionAsHost_onOpen mountRender Sample.connA
                                            Sample.host))
      (setCorrectAnswersCount 40 Sample.client) = Some client' /\
    correctAnswersCount client' = 0 /\
    currentQuestion client' = Some Sample.q1 /\
    selectedAnswers client' = [].
Proof.
  assert (Hm : refs_mirrored Sample.host) by (repeat split).
  split; [reflexivity|]. split; [reflexivity|]. split; [exact Hm|].
  split; [reflexivity|]. split; [reflexivity|].
  destruct (initial_sync_round_trip mountRender mountRender Sample.connA
              Sample.host (setCorrectAnswersCount 40 Sample.client) Sample.q1
              eq_refl eq_refl Hm)
    as [_ [client' [Hrecv [Hc [_ [_ [Hq [_ [Hsel _]]]]]]]]].
  exists client'. split; [exact Hrecv|]. split; [exact Hc|].
  split; [exact Hq | exact Hsel].
Defined.

(** ** C3: a second InitialSync *)

(** C3 as stated fails: a client that has applied one [initial_sync] and
    then receives another one takes over the payload of the second. *)
Lemma second_initial_sync_counterexample :
  exists once twice,
    receiveAll mountRender [initial_sync 1000 0 0 [mkReoccurrence 1 1]]
               Sample.client
      = Some once /\
    receiveAll mountRender [initial_sync 2000 5 3 [mkReoccurrence 1 4]] once
      = Some twice /\
    ~ sameSyncedFields twice once.
Proof.
  eexists. eexists. split; [reflexivity|]. split; [reflexivity|].
  intros [H _]. vm_compute in H. discriminate.
Qed.

(** C3, as amended.  [handlePeerDataAsClient] keeps no record of an earlier
    [initial_sync]: every [initial_sync] message, the first one on a
    connection or a later one, replaces the client's counters, reoccurrence
    list and start-time anchor by the payload of that message, and leaves the
    current question, the selection and the checked flag as they were. *)
Theorem initial_sync_always_applied (render s : State)
  (t1 c1 w1 : Z) (r1 : list Reoccurrence)
  (t2 c2 w2 : Z) (r2 : list Reoccurrence) :
  exists once twice,
    handlePeerDataAsClient render (initial_sync t1 c1 w1 r1) s
      = Some (once, []) /\
    handlePeerDataAsClient render (initial_sync t2 c2 w2 r2) once
      = Some (twice, []) /\
    correctAnswersCount twice = c2 /\
    wrongAnswersCount twice = w2 /\
    reoccurrences twice = r2 /\
    startTimeRef twice = t2 /\
    currentQuestion twice = currentQuestion s /\
    selectedAnswers twice = selectedAnswers s /\
    questionChecked twice = questionChecked s.
Proof.
  eexists. eexists. split; [reflexivity|]. split; [reflexivity|].
  repeat split; reflexivity.
Qed.

(** ** C4: relaying *)

Lemma In_sendToAllPeersExcept (s : State) (A c : DataConnection)
  (m m' : PeerMessage) :
  In (Send c m') (sendToAllPeersExcept s (Some A) m) <->
  m' = m /\ In c (peerConnections s) /\ open c = true /\
  conn_ref c <> conn_ref A.
Proof.
  unfold sendToAllPeersExcept. rewrite in_flat_map. split.
  - intros [x [Hx Hin]]. unfold differs, sendToPeer in Hin.
    destruct (Nat.eqb_spec (conn_ref x) (conn_ref A)) as [He|Hne];
      simpl in Hin; [contradiction|].
    destruct (open x) eqn:Hop; simpl in Hin; [|contradiction].
    destruct Hin as [Heq|[]]. inversion Heq; subst. auto.
  - intros (-> & Hin & Hop & Hne). exists c. split; [exact Hin|].
    unfold differs, sendToPeer.
    destruct (Nat.eqb_spec (conn_ref c) (conn_ref A)); [contradiction|].
    simpl. rewrite Hop. now left.
Qed.

Lemma sendToAllPeersExcept_only_sends (s : State) (A : DataConnection)
  (m : PeerMessage) (e : Effect) :
  In e (sendToAllPeersExcept s (Some A) m) -> exists c, e = Send c m.
Proof.
  unfold sendToAllPeersExcept. rewrite in_flat_map.
  intros [x [_ Hin]]. unfold sendToPeer in Hin.
  destruct (differs x (Some A)); [|contradiction].
  destruct (open x); [|contradiction].
  destruct Hin as [<-|[]]. now exists x.
Qed.

Lemma checkAnswer_remote_sends_nothing (render s : State) :
  snd (checkAnswer true render s) = [].
Proof.
  unfold checkAnswer. destruct (questionChecked render); [reflexivity|].
  destruct (currentQuestionRef s); reflexivity.
Qed.

Lemma handlePeerDataAsHost_relayed_effects (render : State)
  (A : DataConnection) (m : PeerMessage) (s : State) :
  relayed m ->
  snd (handlePeerDataAsHost render A m s)
  = sendToAllPeersExcept render (Some A) m.
Proof.
  intros [[q [sel ->]] | ->]; simpl; [reflexivity|].
  pose proof (checkAnswer_remote_sends_nothing render s) as H.
  destruct (checkAnswer true render s) as [s' effs]. simpl in *.
  now rewrite H.
Qed.

Lemma handlePeerDataAsClient_effects (render : State) (m : PeerMessage)
  (s s' : State) (effs : list Effect) (e : Effect) :
  handlePeerDataAsClient render m s = Some (s', effs) -> In e effs ->
  m = ping /\ exists c, e = Send c pong.
Proof.
  destruct m; simpl; intros H Hin; try (inversion H; subst; contradiction).
  - pose proof (checkAnswer_remote_sends_nothing render s) as Hn.
    inversion H as [Hc]. rewrite Hc in Hn. simpl in Hn. subst effs.
    contradiction.
  - destruct (peerConnections render) as [|c rest]; simpl in H;
      [discriminate|].
    inversion H; subst. unfold sendToPeer in Hin.
    destruct (open c); [|contradiction].
    destruct Hin as [<-|[]]. split; [reflexivity | now exists c].
Qed.

(** C4, what the code does.  The host's data handler relays a
    [question_update] or an [answer_checked] message to the open
    connections, other than the sender, of the [peerConnections] cell of the
    render that registered it, and to no other connection.  That render is
    the mount render, whose cell is the empty list: whatever connections the
    host has by now, nothing is relayed.  A client that receives a message,
    of any kind, never hands that message to a connection. *)
Theorem registered_host_relays_nothing (render : State) (A : DataConnection)
  (m : PeerMessage) (s : State) :
  relayed m ->
  (forall c m',
     In (Send c m') (snd (handlePeerDataAsHost render A m s)) <->
     m' = m /\ In c (peerConnections render) /\ open c = true /\
     conn_ref c <> conn_ref A) /\
  (forall e, In e (snd (handlePeerDataAsHost render A m s)) ->
             exists c, e = Send c m) /\
  (peerConnections render = [] ->
   snd (handlePeerDataAsHost render A m s) = []) /\
  (forall (clientRender : State) (received : PeerMessage) (cl cl' : State)
          (effs : list Effect) (c : DataConnection),
      handlePeerDataAsClient clientRender received cl = Some (cl', effs) ->
      ~ In (Send c received) effs).
Proof.
  intros Hm. rewrite (handlePeerDataAsHost_relayed_effects render A m s Hm).
  split; [|split; [|split]].
  - intros c m'. apply In_sendToAllPeersExcept.
  - intros e He. exact (sendToAllPeersExcept_only_sends render A m e He).
  - intros Hnil. unfold sendToAllPeersExcept. now rewrite Hnil.
  - intros clientRender received cl cl' effs c Hrun Hin.
    destruct (handlePeerDataAsClient_effects clientRender received cl cl'
                effs _ Hrun Hin) as [-> [c' Heq]].
    discriminate.
Qed.

Lemma registered_host_relays_nothing_witness :
  relayed answer_checked /\
  peerConnections Sample.host
    = [Sample.connA; Sample.connB; Sample.connC] /\
  open Sample.connB = true /\
  snd (handlePeerDataAsHost mountRender Sample.connA answer_checked
                            Sample.host) = [].
Proof.
  assert (Hm : relayed answer_checked) by (right; reflexivity).
  split; [exact Hm|]. split; [reflexivity|]. split; [reflexivity|].
  apply (registered_host_relays_nothing mountRender Sample.connA
           answer_checked Sample.host Hm).
  reflexivity.
Defined.

(** ** C5: question selection *)

Lemma random_index_in_range (rng : Random) (n : nat) :
  random_in_unit_interval rng -> (0 < n)%nat ->
  0 <= rand_num rng * Z.of_nat n / rand_den rng < Z.of_nat n.
Proof.
  unfold random_in_unit_interval. intros Hr Hn. split.
  - apply Z.div_pos; nia.
  - apply Z.div_lt_upper_bound; nia.
Qed.

Lemma pickRandomQuestion_keeps_reoccurrences (quizId : string) (rng : Random)
  (quizData : Quiz) (R : list Reoccurrence) (s st st' : State)
  (effs : list Effect) (ret : option Question) :
  pickRandomQuestion quizId rng quizData R s st = Some (st', effs, ret) ->
  reoccurrences st' = reoccurrences st.
Proof.
  unfold pickRandomQuestion.
  destruct (Nat.eqb _ 0); [intros H; inversion H; reflexivity|].
  destruct (_ <? 0); [discriminate|].
  destruct (nth_error _ _); [|discriminate].
  destruct (find _ _); intros H; inversion H; reflexivity.
Qed.

(** C5.  With [Math.random()] in the interval [0, 1), [pickRandomQuestion]
    returns; a question it returns is the new current question and has an
    entry in [R] with a count above zero; when it returns none, the current
    question is set to null; and when no entry of [R] has a count above
    zero, it returns none, marks the quiz finished and sets the current
    question to null. *)
Theorem pickRandomQuestion_eligible (quizId : string) (rng : Random)
  (quizData : Quiz) (R : list Reoccurrence) (s st : State) :
  random_in_unit_interval rng ->
  exists st' effs ret,
    pickRandomQuestion quizId rng quizData R s st = Some (st', effs, ret) /\
    currentQuestion st' = ret /\
    (forall q, ret = Some q ->
       exists r, In r R /\ r_id r = q_id q /\ 0 < r_reoccurrences r) /\
    ((forall r, In r R -> r_reoccurrences r <= 0) ->
       ret = None /\ isQuizFinished st' = true).
Proof.
  intros Hrng. unfold pickRandomQuestion.
  set (available := filter (fun r => 0 <? r_reoccurrences r) R).
  assert (Hav : forall r, In r available -> In r R /\ 0 < r_reoccurrences r).
  { intros r Hr. apply filter_In in Hr. destruct Hr as [Hin Hpos].
    apply Z.ltb_lt in Hpos. auto. }
  destruct (Nat.eqb_spec (List.length available) 0) as [Hempty|Hne].
  - do 3 eexists. split; [reflexivity|]. split; [reflexivity|].
    split; [discriminate|]. intros _. split; reflexivity.
  - destruct (random_index_in_range rng (List.length available) Hrng)
      as [Hlo Hhi]; [lia|].
    set (idx := rand_num rng * Z.of_nat (List.length available)
                / rand_den rng) in *.
    replace (idx <? 0) with false by (symmetry; apply Z.ltb_ge; lia).
    destruct (nth_error available (Z.to_nat idx)) as [r|] eqn:Hnth.
    2:{ apply nth_error_None in Hnth. lia. }
    apply nth_error_In, Hav in Hnth. destruct Hnth as [HinR Hpos].
    assert (Hsome : ~ (forall r', In r' R -> r_reoccurrences r' <= 0)).
    { intros Hall. specialize (Hall r HinR). lia. }
    destruct (find (fun q => q_id q =? r_id r) (questions quizData))
      as [questionObj|] eqn:Hfind.
    + apply find_some in Hfind. destruct Hfind as [_ Hid].
      apply Z.eqb_eq in Hid.
      do 3 eexists. split; [reflexivity|]. split; [reflexivity|]. split.
      * intros q Hq. inversion Hq; subst q. exists r. simpl. auto.
      * intros Hall. contradiction.
    + do 3 eexists. split; [reflexivity|]. split; [reflexivity|]. split.
      * discriminate.
      * intros Hall. contradiction.
Qed.

Lemma pickRandomQuestion_eligible_witness :
  random_in_unit_interval Sample.rng0 /\
  exists st' effs ret,
    pickRandomQuestion "quiz" Sample.rng0 Sample.theQuiz
      [mkReoccurrence 1 0; mkReoccurrence 2 1] Sample.session Sample.session
      = Some (st', effs, ret) /\
    currentQuestion st' = ret /\
    (forall q, ret = Some q ->
       exists r, In r [mkReoccurrence 1 0; mkReoccurrence 2 1] /\
                 r_id r = q_id q /\ 0 < r_reoccurrences r) /\
    ((forall r, In r [mkReoccurrence 1 0; mkReoccurrence 2 1] ->
                r_reoccurrences r <= 0) ->
       ret = None /\ isQuizFinished st' = true).
Proof.
  assert (Hr : random_in_unit_interval Sample.rng0).
  { unfold random_in_unit_interval. simpl. lia. }
  split; [exact Hr|].
  exact (pickRandomQuestion_eligible "quiz" Sample.rng0 Sample.theQuiz
           [mkReoccurrence 1 0; mkReoccurrence 2 1]
           Sample.session Sample.session Hr).
Defined.

(** The scenario of a list [{1,1},{2,1}] with question 1 answered
    correctly: one correct answer is counted, the list becomes
    [{1,0},{2,1}], and the next pick is question 2 whatever the draw. *)
Lemma scenario_answer_then_pick (rng : Random) :
  random_in_unit_interval rng ->
  let checked := fst (checkAnswer false Sample.session Sample.session) in
  correctAnswersCount checked = 1 /\
  reoccurrences checked = [mkReoccurrence 1 0; mkReoccurrence 2 1] /\
  exists s' effs q,
    nextQuestion "quiz" rng checked = Some (s', effs) /\
    currentQuestion s' = Some q /\ q_id q = 2.
Proof.
  intros Hr. split; [reflexivity|]. split; [reflexivity|].
  unfold nextQuestion, pickRandomQuestion. simpl.
  rewrite Z.mul_1_r.
  unfold random_in_unit_interval in Hr.
  rewrite Z.div_small by lia. simpl.
  do 3 eexists. split; [reflexivity|]. split; reflexivity.
Qed.

(** ** C9: counts never go below zero *)

Lemma freshReoccurrences_nonneg (quizData : Quiz) (settings : UserSettings) :
  0 <= initial_reoccurrences settings ->
  countsNonNegative (freshReoccurrences quizData settings).
Proof.
  intros H. unfold countsNonNegative, freshReoccurrences.
  apply Forall_map, Forall_forall. intros q _. exact H.
Qed.

Lemma checkAnswer_nonneg (remote : bool) (render s : State) :
  countsNonNegative (reoccurrences s) ->
  0 <= wrong_answer_reoccurrences (userSettings render) ->
  countsNonNegative (reoccurrences (fst (checkAnswer remote render s))).
Proof.
  intros Hs Hw. unfold checkAnswer.
  destruct (questionChecked render); [exact Hs|].
  destruct (currentQuestionRef s) as [q|]; [|exact Hs].
  unfold countsNonNegative in *. rewrite Forall_forall in Hs.
  destruct (isCorrect q (selectedAnswers render)); simpl;
    apply Forall_map, Forall_forall; intros r Hr;
    specialize (Hs r Hr); destruct (r_id r =? q_id q); simpl;
    first [lia | unfold jsAdd; apply roundToDouble_nonneg; lia].
Qed.

(** C9 as stated fails: the penalty comes from the settings as they are, and
    with a negative [wrong_answer_reoccurrences] a wrong answer takes a
    count below zero. *)
Lemma negative_penalty_counterexample :
  countsNonNegative (reoccurrences Sample.sessionNegativePenalty) /\
  reoccurrences
    (fst (checkAnswer false Sample.sessionNegativePenalty
                      Sample.sessionNegativePenalty))
    = [mkReoccurrence 1 (-4); mkReoccurrence 2 1] /\
  ~ staysNonNegative "quiz" Sample.sessionNegativePenalty.
Proof.
  split.
  - repeat constructor; simpl; lia.
  - split; [reflexivity|].
    intros [H _]. specialize (H false). inversion H as [|r l Hneg _].
    vm_compute in Hneg. exact (Hneg eq_refl).
Qed.

(** C9, as amended.  For a session state whose reoccurrence counts are all
    non-negative and whose settings [initial_reoccurrences] and
    [wrong_answer_reoccurrences] are non-negative, checking an answer
    (correctly or not), resetting the progress and creating fresh
    reoccurrences all leave every count non-negative. *)
Theorem reoccurrences_stay_nonneg (quizId : string) (s : State) :
  countsNonNegative (reoccurrences s) ->
  0 <= initial_reoccurrences (userSettings s) ->
  0 <= wrong_answer_reoccurrences (userSettings s) ->
  staysNonNegative quizId s.
Proof.
  intros Hs Hi Hw. split; [|split; [|split]].
  - intros remote. now apply checkAnswer_nonneg.
  - intros remote render Hr. now apply checkAnswer_nonneg.
  - intros rng now s' effs. unfold resetProgress.
    destruct (quiz s) as [quizData|].
    + destruct (pickRandomQuestion _ _ _ _ _ _) as [[[st' e] ret]|] eqn:Hp;
        [|discriminate].
      intros H. inversion H; subst.
      rewrite (pickRandomQuestion_keeps_reoccurrences _ _ _ _ _ _ _ _ _ Hp).
      simpl. now apply freshReoccurrences_nonneg.
    + intros H. inversion H; subst. exact Hs.
  - intros quizData. now apply freshReoccurrences_nonneg.
Qed.

Lemma reoccurrences_stay_nonneg_witness :
  countsNonNegative (reoccurrences Sample.session) /\
  0 <= initial_reoccurrences (userSettings Sample.session) /\
  0 <= wrong_answer_reoccurrences (userSettings Sample.session) /\
  staysNonNegative "quiz" Sample.session /\
  exists s' effs,
    resetProgress "quiz" Sample.rng0 5000 Sample.session = Some (s', effs).
Proof.
  assert (Hs : countsNonNegative (reoccurrences Sample.session)).
  { repeat constructor; simpl; lia. }
  assert (Hi : 0 <= initial_reoccurrences (userSettings Sample.session)).
  { simpl. lia. }
  assert (Hw : 0 <= wrong_answer_reoccurrences (userSettings Sample.session)).
  { simpl. lia. }
  split; [exact Hs|]. split; [exact Hi|]. split; [exact Hw|]. split.
  - exact (reoccurrences_stay_nonneg "quiz" Sample.session Hs Hi Hw).
  - do 2 eexists. reflexivity.
Defined.

(** ** C10: where progress is saved *)

(** C10.  [saveProgress] posts the progress to the server only when
    [sync_progress] is set and the device is the continuity host or has no
    open connection (the test in the code is that its connection list is
    empty); a device that is not the host and has an open connection posts
    nothing and writes local storage only; and with no current question, or
    with the quiz finished, [saveProgress] does nothing. *)
Theorem saveProgress_gate (quizId : string) (s : State) :
  (forall p, In (ServerPost p) (saveProgress quizId s) ->
     sync_progress (userSettings s) = true /\
     (isContinuityHost s = true \/ peerConnections s = []) /\
     (isContinuityHost s = true \/ noOpenConnection s)) /\
  (isContinuityHost s = false ->
   (exists c, In c (peerConnections s) /\ open c = true) ->
   forall e, In e (saveProgress quizId s) ->
     exists p, e = LocalStorageSet (progressKey quizId) p) /\
  (currentQuestion s = None \/ isQuizFinished s = true ->
   saveProgress quizId s = []).
Proof.
  unfold saveProgress. split; [|split].
  - intros p Hin.
    destruct (currentQuestion s) as [q|]; [|contradiction].
    destruct (isQuizFinished s); [contradiction|].
    destruct Hin as [Hd|Hin]; [discriminate|].
    destruct (sync_progress (userSettings s)); simpl in Hin; [|contradiction].
    split; [reflexivity|].
    destruct (isContinuityHost s); simpl in Hin; [split; now left|].
    destruct (peerConnections s) as [|c l] eqn:Hl; simpl in Hin;
      [|contradiction].
    split; right; [reflexivity|]. unfold noOpenConnection. rewrite Hl.
    intros c [].
  - intros Hhost [c [Hc Hop]] e Hin.
    destruct (currentQuestion s) as [q|]; [|contradiction].
    destruct (isQuizFinished s); [contradiction|].
    destruct Hin as [<-|Hin]; [eexists; reflexivity|].
    rewrite Hhost in Hin.
    destruct (peerConnections s); [contradiction|].
    rewrite andb_false_r in Hin. contradiction.
  - intros [Hq|Hf].
    + now rewrite Hq.
    + rewrite Hf. now destruct (currentQuestion s).
Qed.

Lemma saveProgress_gate_witness :
  saveProgress "quiz" Sample.client
    = [LocalStorageSet "quiz_progress"
         (mkProgress 1 0 0 12 [mkReoccurrence 1 1; mkReoccurrence 2 1])] /\
  forall e, In e (saveProgress "quiz" Sample.client) ->
    exists p, e = LocalStorageSet (progressKey "quiz") p.
Proof.
  split; [reflexivity|].
  apply (saveProgress_gate "quiz" Sample.client).
  - reflexivity.
  - exists Sample.hostConn. split; [now left | reflexivity].
Defined.

(** ** C7: a client that loses its host *)

(** On a device that has no peer yet, [initiateContinuity] registers one
    under the rendezvous identifier: this is the negotiation. *)
Lemma initiateContinuity_registers (quizId userId : string) (s : State) :
  peerRef s = None -> userId <> ""%string ->
  initiateContinuity quizId (Some userId) s
    = [NewPeer (Some (baseId quizId userId))].
Proof.
  intros Hp Hu. unfold initiateContinuity. rewrite Hp.
  destruct (String.eqb_spec userId ""); [contradiction | reflexivity].
Qed.

(** Once [peerRef] holds a peer, [initiateContinuity] returns at its first
    test. *)
Lemma initiateContinuity_already_initialized (quizId : string)
  (userId : option string) (s : State) (thePeer : Peer) :
  peerRef s = Some thePeer -> initiateContinuity quizId userId s = [].
Proof. intros Hp. unfold initiateContinuity. now rewrite Hp. Qed.

(** C7, what the code does.  A client whose connection closes makes one
    call to [connectToPeer] for the identifier of the closed connection (the
    [isContinuityHost] cell the handler reads is unset, as the client's own
    is).
    When that attempt is rejected, the call to [initiateContinuity] that
    follows finds [peerRef] still holding the client's peer and returns at
    once: no peer is registered under the rendezvous identifier, the device
    stays a client, and a later call does nothing either. *)
Theorem handlePeerClose_rejected_no_negotiation (quizId : string)
  (userId : option string) (render : State) (conn : DataConnection)
  (s : State) (thePeer : Peer) :
  isContinuityHost render = false ->
  isContinuityHost s = false ->
  peerRef s = Some thePeer ->
  destroyed thePeer = false ->
  snd (handlePeerClose quizId userId render conn Rejected s)
    = connectToPeer thePeer (peer conn) /\
  (peer_open thePeer = true ->
   snd (handlePeerClose quizId userId render conn Rejected s)
     = [Connect (peer conn)]) /\
  (forall id,
     ~ In (NewPeer id)
          (snd (handlePeerClose quizId userId render conn Rejected s))) /\
  isContinuityHost (fst (handlePeerClose quizId userId render conn Rejected s))
    = false /\
  peerRef (fst (handlePeerClose quizId userId render conn Rejected s))
    = Some thePeer /\
  initiateContinuity quizId userId
    (fst (handlePeerClose quizId userId render conn Rejected s)) = [].
Proof.
  intros Hrender Hhost Hp Hd.
  assert (Heffs : snd (handlePeerClose quizId userId render conn Rejected s)
                  = connectToPeer thePeer (peer conn)).
  { unfold handlePeerClose. rewrite Hp, Hrender, Hd. simpl.
    unfold initiateContinuity. simpl. rewrite Hp. apply app_nil_r. }
  assert (Hst : fst (handlePeerClose quizId userId render conn Rejected s)
                = setPeerConnections
                    (filter (fun c => open c
                                      && negb (String.eqb (peer c) (peer conn)))
                            (peerConnections s)) s).
  { unfold handlePeerClose. rewrite Hp, Hrender, Hd. reflexivity. }
  rewrite Heffs, Hst. unfold connectToPeer.
  split; [reflexivity|]. split; [intros ->; reflexivity|]. split.
  - intros id Hin. destruct (peer_open thePeer); simpl in Hin;
      [destruct Hin as [H|[]]; discriminate | contradiction].
  - split; [exact Hhost|]. split; [exact Hp|].
    unfold initiateContinuity. simpl. now rewrite Hp.
Qed.

Lemma handlePeerClose_rejected_no_negotiation_witness :
  isContinuityHost Sample.client = false /\
  handlePeerClose "quiz" (Some "user"%string) mountRender Sample.hostConn
                  Rejected Sample.client
    = (setPeerConnections [] Sample.client, [Connect "quiz_user"]) /\
  forall id,
    ~ In (NewPeer id)
         (snd (handlePeerClose "quiz" (Some "user"%string) mountRender
                               Sample.hostConn Rejected Sample.client)).
Proof.
  split; [reflexivity|]. split; [reflexivity|].
  apply (handlePeerClose_rejected_no_negotiation "quiz" (Some "user"%string)
           mountRender Sample.hostConn Sample.client (mkPeer true false));
    reflexivity.
Defined.

(** ** C8: the liveness monitor *)

Lemma In_pingPeers (render : State) (e : Effect) :
  In e (pingPeers render) <->
  exists c, In c (peerConnections render) /\ open c = true /\
            (e = Send c ping \/ e = ArmTimeout c PING_TIMEOUT).
Proof.
  unfold pingPeers, sendToPeer. rewrite in_flat_map. split.
  - intros [c [Hc Hin]]. destruct (open c) eqn:Ho; [|contradiction].
    exists c. split; [exact Hc|]. split; [exact Ho|].
    simpl in Hin. destruct Hin as [<-|[<-|[]]]; auto.
  - intros [c [Hc [Ho He]]]. exists c. split; [exact Hc|].
    rewrite Ho. simpl. destruct He as [->| ->]; auto.
Qed.

Lemma handlePeerClose_list (quizId : string) (userId : option string)
  (render : State) (conn : DataConnection) (outcome : ConnectOutcome)
  (s : State) :
  (forall newConn, outcome <> Resolved newConn) ->
  peerConnections (fst (handlePeerClose quizId userId render conn outcome s))
  = filter (fun c => open c && negb (String.eqb (peer c) (peer conn)))
           (peerConnections s).
Proof.
  intros Hout. unfold handlePeerClose.
  destruct (peerRef s) as [thePeer|]; [|reflexivity].
  destruct (negb (isContinuityHost render) && negb (destroyed thePeer));
    [|reflexivity].
  destruct outcome as [newConn| |]; [|reflexivity|reflexivity].
  exfalso. exact (Hout newConn eq_refl).
Qed.

Lemma filter_twice {A : Type} (f : A -> bool) (l : list A) :
  filter f (filter f l) = filter f l.
Proof.
  induction l as [|x l IH]; simpl; [reflexivity|].
  destruct (f x) eqn:Hx; simpl; [rewrite Hx; f_equal|]; exact IH.
Qed.

(** C8, what the code does.  One run of [pingPeers] sends a ping to, and
    arms a timeout of [PING_TIMEOUT] for, exactly the open connections of
    the [peerConnections] cell of its render; a timeout that is not cleared
    closes its connection; and the handler of a closed connection takes the
    connection off the list, a second close of the same connection changing
    nothing more (when no reconnection resolves).  The interval is set by
    the mount effect, so the render is the mount render and its cell is the
    empty list: whatever connections are open by now, no ping is sent and no
    timeout is armed. *)
Theorem pingPeers_reads_mount_list (quizId : string) (userId : option string)
  (render closeRender : State) (conn : DataConnection)
  (outcome : ConnectOutcome) (s : State) :
  (forall e, In e (pingPeers render) <->
     exists c, In c (peerConnections render) /\ open c = true /\
               (e = Send c ping \/ e = ArmTimeout c PING_TIMEOUT)) /\
  pingTimeout conn = [CloseConn conn] /\
  ((forall newConn, outcome <> Resolved newConn) ->
   ~ In conn
       (peerConnections
          (fst (handlePeerClose quizId userId closeRender conn outcome s))) /\
   peerConnections
     (fst (handlePeerClose quizId userId closeRender conn outcome
             (fst (handlePeerClose quizId userId closeRender conn outcome
                                   s))))
   = peerConnections
       (fst (handlePeerClose quizId userId closeRender conn outcome s))) /\
  (peerConnections render = [] -> pingPeers render = []).
Proof.
  split; [apply In_pingPeers|]. split; [reflexivity|]. split.
  - intros Hout. rewrite !handlePeerClose_list by exact Hout. split.
    + rewrite filter_In, andb_true_iff, negb_true_iff, String.eqb_refl.
      intros (_ & _ & H). discriminate.
    + apply filter_twice.
  - intros Hnil. unfold pingPeers. now rewrite Hnil.
Qed.

Lemma pingPeers_reads_mount_list_witness :
  peerConnections Sample.host
    = [Sample.connA; Sample.connB; Sample.connC] /\
  open Sample.connA = true /\
  pingPeers mountRender = [] /\
  pingPeers (setPeerConnections [Sample.connA] mountRender)
    = [Send Sample.connA ping; ArmTimeout Sample.connA 15000].
Proof.
  split; [reflexivity|]. split; [reflexivity|]. split; [|reflexivity].
  apply (pingPeers_reads_mount_list "quiz" None mountRender mountRender
           Sample.connA Pending Sample.host).
  reflexivity.
Defined.
(** * Further properties *)

(** ** The rendezvous identifier *)

Lemma removeSlashes_no_slash (str : string) : ~ hasSlash (removeSlashes str).
Proof.
  unfold hasSlash. induction str as [|c rest IH]; simpl; [tauto|].
  destruct (Ascii.eqb_spec c "/"%char) as [->|Hne]; [exact IH|].
  simpl. intros [Heq|Hin]; [congruence | now apply IH].
Qed.

(** [initiateContinuity] registers at most one peer, and only on a device
    that has no peer yet and knows a non-empty user id; the identifier it
    registers is [baseId], which contains no [/]. *)
Theorem initiateContinuity_effects (quizId : string) (userId : option string)
  (s : State) (e : Effect) :
  In e (initiateContinuity quizId userId s) ->
  initiateContinuity quizId userId s = [e] /\
  peerRef s = None /\
  exists u, userId = Some u /\ u <> ""%string /\
            e = NewPeer (Some (baseId quizId u)) /\
            ~ hasSlash (baseId quizId u).
Proof.
  unfold initiateContinuity.
  destruct (peerRef s); [contradiction|].
  destruct userId as [u|]; [|contradiction].
  destruct (String.eqb_spec u ""); [contradiction|].
  intros [<-|[]]. split; [reflexivity|]. split; [reflexivity|].
  exists u. repeat split; auto. apply removeSlashes_no_slash.
Qed.

Lemma initiateContinuity_effects_witness :
  initiateContinuity "7/a" (Some "u/1"%string) Sample.session
    = [NewPeer (Some "7a_u1"%string)] /\
  ~ hasSlash (baseId "7/a" "u/1").
Proof.
  split; [reflexivity|].
  destruct (initiateContinuity_effects "7/a" (Some "u/1"%string)
              Sample.session (NewPeer (Some "7a_u1"%string))
              (or_introl eq_refl))
    as (_ & _ & u & Hu & _ & _ & Hs).
  inversion Hu; subst u. exact Hs.
Defined.

(** ** Closed connections *)

Lemma filter_all {A : Type} (f : A -> bool) (l : list A) :
  (forall x, In x l -> f x = true) -> filter f l = l.
Proof.
  induction l as [|x l IH]; simpl; intros H; [reflexivity|].
  rewrite (H x) by now left. f_equal. apply IH. intros y Hy. apply H.
  now right.
Qed.

(** After [handlePeerClose] for connection [conn], the connection list holds
    exactly the earlier connections that are open and belong to another
    peer, plus the new connection when the reconnection succeeded, the peer
    is alive and the [isContinuityHost] cell of the handler's render is
    unset (it is for the handlers the mount effect registers, on a host as
    well). *)
Theorem handlePeerClose_prunes (quizId : string) (userId : option string)
  (render : State) (conn : DataConnection) (outcome : ConnectOutcome)
  (s : State) (c : DataConnection) :
  In c (peerConnections
          (fst (handlePeerClose quizId userId render conn outcome s)))
  <->
  (In c (peerConnections s) /\ open c = true /\ peer c <> peer conn) \/
  (outcome = Resolved c /\ isContinuityHost render = false /\
   exists thePeer, peerRef s = Some thePeer /\ destroyed thePeer = false).
Proof.
  assert (Hf : forall x,
    In x (filter (fun c => open c && negb (String.eqb (peer c) (peer conn)))
                 (peerConnections s))
    <-> In x (peerConnections s) /\ open x = true /\ peer x <> peer conn).
  { intros x. rewrite filter_In, andb_true_iff, negb_true_iff.
    split; intros (H1 & H2 & H3); repeat split; auto.
    - now apply String.eqb_neq.
    - now apply String.eqb_neq. }
  unfold handlePeerClose.
  destruct (peerRef s) as [thePeer|]; simpl.
  - destruct (isContinuityHost render); simpl.
    + rewrite Hf. split; [tauto|]. intros [H|(_ & H & _)]; [tauto|discriminate].
    + destruct (destroyed thePeer) eqn:Hd; simpl.
      * rewrite Hf. split; [tauto|].
        intros [H|(_ & _ & p & Hp & Hp')]; [tauto|]. congruence.
      * destruct outcome as [newConn| |]; simpl.
        -- rewrite in_app_iff, Hf. simpl. split.
           ++ intros [H|[<-|[]]]; [tauto|]. right. repeat split; eauto.
           ++ intros [H|(H & _)]; [tauto|]. inversion H. tauto.
        -- rewrite Hf. split; [tauto|].
           intros [H|(H & _)]; [tauto|discriminate].
        -- rewrite Hf. split; [tauto|].
           intros [H|(H & _)]; [tauto|discriminate].
  - rewrite Hf. split; [tauto|].
    intros [H|(_ & _ & p & Hp & _)]; [tauto|discriminate].
Qed.

(** On a host whose peer is alive, the close handler registered by the mount
    effect, whose [isContinuityHost] cell is unset, treats a closed client
    connection as a client treats the loss of its host: it makes one
    reconnection attempt to the peer of the closed connection and registers
    no peer; the new connection joins the list when the attempt succeeds.
    Role, peer, counters, reoccurrence list and current question of the host
    are as before. *)
Theorem handlePeerClose_on_host (quizId : string) (userId : option string)
  (render : State) (conn : DataConnection) (outcome : ConnectOutcome)
  (s : State) (thePeer : Peer) :
  isContinuityHost render = false ->
  isContinuityHost s = true ->
  peerRef s = Some thePeer ->
  destroyed thePeer = false ->
  snd (handlePeerClose quizId userId render conn outcome s)
    = connectToPeer thePeer (peer conn) /\
  (peer_open thePeer = true ->
   snd (handlePeerClose quizId userId render conn outcome s)
     = [Connect (peer conn)]) /\
  (forall newConn, outcome = Resolved newConn ->
     In newConn
        (peerConnections
           (fst (handlePeerClose quizId userId render conn outcome s)))) /\
  isContinuityHost (fst (handlePeerClose quizId userId render conn outcome s))
    = true /\
  peerRef (fst (handlePeerClose quizId userId render conn outcome s))
    = Some thePeer /\
  sameScore (fst (handlePeerClose quizId userId render conn outcome s)) s /\
  currentQuestion (fst (handlePeerClose quizId userId render conn outcome s))
    = currentQuestion s.
Proof.
  intros Hr Hh Hp Hd. unfold handlePeerClose, initiateContinuity.
  rewrite Hp, Hr, Hd. simpl.
  destruct outcome as [newConn| |]; simpl;
    rewrite ?Hp; rewrite ?app_nil_r;
    (split; [reflexivity|]);
    (split; [intros Ho; unfold connectToPeer; now rewrite Ho|]);
    (split; [intros n Hn; inversion Hn; subst;
             apply in_or_app; right; now left|]);
    repeat split; auto.
Qed.

Lemma handlePeerClose_on_host_witness :
  isContinuityHost Sample.host = true /\
  handlePeerClose "quiz" (Some "user"%string) mountRender Sample.connB
                  (Resolved (mkConn 9 "device-b" true)) Sample.host
    = (setPeerConnections
         [Sample.connA; Sample.connC; mkConn 9 "device-b" true] Sample.host,
       [Connect "device-b"]) /\
  snd (handlePeerClose "quiz" (Some "user"%string) mountRender Sample.connB
                       (Resolved (mkConn 9 "device-b" true)) Sample.host)
    = connectToPeer (mkPeer true false) (peer Sample.connB).
Proof.
  split; [reflexivity|]. split; [reflexivity|].
  apply (handlePeerClose_on_host "quiz" (Some "user"%string) mountRender
           Sample.connB (Resolved (mkConn 9 "device-b" true)) Sample.host
           (mkPeer true false)); reflexivity.
Defined.

(** Accepting a connection and then closing it, when the earlier
    connections are open and none of them belongs to the peer of the closed
    connection: the list is the earlier one again if no reconnection
    succeeds, and the earlier one followed by the new connection if the
    close handler's reconnection attempt succeeds. *)
Theorem accept_then_close (quizId : string) (userId : option string)
  (render : State) (conn : DataConnection) (outcome : ConnectOutcome)
  (s : State) :
  (forall c, In c (peerConnections s) ->
             open c = true /\ peer c <> peer conn) ->
  ((forall newConn, outcome <> Resolved newConn) ->
   peerConnections
     (fst (handlePeerClose quizId userId render conn outcome
             (handlePeerConnectionAsHost conn s)))
   = peerConnections s) /\
  (forall newConn thePeer,
     outcome = Resolved newConn ->
     isContinuityHost render = false ->
     peerRef s = Some thePeer -> destroyed thePeer = false ->
     peerConnections
       (fst (handlePeerClose quizId userId render conn outcome
               (handlePeerConnectionAsHost conn s)))
     = peerConnections s ++ [newConn]).
Proof.
  intros Hall.
  assert (Hfilter :
    filter (fun c => open c && negb (String.eqb (peer c) (peer conn)))
           (peerConnections s ++ [conn]) = peerConnections s).
  { rewrite filter_app. simpl. rewrite String.eqb_refl, andb_false_r.
    rewrite app_nil_r. apply filter_all. intros c Hc.
    destruct (Hall c Hc) as [Ho Hne]. rewrite Ho. simpl.
    apply negb_true_iff. now apply String.eqb_neq. }
  split.
  - intros Hout. rewrite handlePeerClose_list by exact Hout.
    exact Hfilter.
  - intros newConn thePeer -> Hr Hp Hd.
    unfold handlePeerClose, handlePeerConnectionAsHost. simpl.
    rewrite Hp, Hr, Hd. simpl. now rewrite Hfilter.
Qed.

Lemma accept_then_close_witness :
  peerConnections
    (fst (handlePeerClose "quiz" None mountRender (mkConn 9 "device-d" true)
            Rejected
            (handlePeerConnectionAsHost (mkConn 9 "device-d" true)
                                        Sample.host)))
  = [Sample.connA; Sample.connB; Sample.connC].
Proof.
  apply (accept_then_close "quiz" None mountRender (mkConn 9 "device-d" true)
           Rejected Sample.host).
  - intros c Hc. simpl in Hc.
    destruct Hc as [<-|[<-|[<-|[]]]]; split; try reflexivity; discriminate.
  - intros newConn. discriminate.
Defined.

(** ** What a check broadcasts and what it keeps *)

Lemma sendToAllPeers_map (s : State) (m : PeerMessage) :
  sendToAllPeers s m
  = map (fun c => Send c m) (filter open (peerConnections s)).
Proof.
  unfold sendToAllPeers, sendToPeer.
  induction (peerConnections s) as [|c l IH]; simpl; [reflexivity|].
  destruct (open c); simpl; now rewrite IH.
Qed.

Lemma In_sendToAllPeers (s : State) (m : PeerMessage) (e : Effect) :
  In e (sendToAllPeers s m) <->
  exists c, e = Send c m /\ In c (peerConnections s) /\ open c = true.
Proof.
  rewrite sendToAllPeers_map, in_map_iff. split.
  - intros [c [<- Hc]]. apply filter_In in Hc. exists c. tauto.
  - intros [c [-> [Hin Ho]]]. exists c. split; [reflexivity|].
    apply filter_In. tauto.
Qed.

(** A local check that takes place tells every open connection, once each
    and in list order, that the answer was checked; a check triggered by a
    peer, a check of a checked question and a check without a current
    question send nothing. *)
Theorem checkAnswer_broadcast (render s : State) :
  snd (checkAnswer true render s) = [] /\
  (questionChecked s = true \/ currentQuestionRef s = None ->
   snd (checkAnswer false s s) = []) /\
  (questionChecked s = false -> currentQuestionRef s <> None ->
   snd (checkAnswer false s s)
   = map (fun c => Send c answer_checked) (filter open (peerConnections s))).
Proof.
  split; [apply checkAnswer_remote_sends_nothing|]. split.
  - intros H. now rewrite checkAnswer_skipped.
  - intros Hc Hq. unfold checkAnswer. rewrite Hc.
    destruct (currentQuestionRef s); [|congruence].
    simpl. apply sendToAllPeers_map.
Qed.

Lemma checkAnswer_broadcast_witness :
  snd (checkAnswer false Sample.host Sample.host)
  = [Send Sample.connA answer_checked; Send Sample.connB answer_checked;
     Send Sample.connC answer_checked].
Proof.
  destruct (checkAnswer_broadcast mountRender Sample.host) as (_ & _ & H).
  rewrite H; [reflexivity | reflexivity | discriminate].
Defined.

Lemma checkAnswer_frame (remote : bool) (render s : State) :
  map r_id (reoccurrences (fst (checkAnswer remote render s)))
    = map r_id (reoccurrences s) /\
  currentQuestion (fst (checkAnswer remote render s)) = currentQuestion s /\
  selectedAnswers (fst (checkAnswer remote render s)) = selectedAnswers s /\
  isQuizFinished (fst (checkAnswer remote render s)) = isQuizFinished s /\
  sameSurroundings (fst (checkAnswer remote render s)) s /\
  startTimeRef (fst (checkAnswer remote render s)) = startTimeRef s.
Proof.
  unfold checkAnswer, sameSurroundings.
  destruct (questionChecked render); simpl; [tauto|].
  destruct (currentQuestionRef s) as [q|]; simpl; [|tauto].
  assert (Hids : forall f,
            map r_id (map (fun r => if r_id r =? q_id q
                                    then mkReoccurrence (r_id r) (f r)
                                    else r) (reoccurrences s))
            = map r_id (reoccurrences s)).
  { intros f. rewrite map_map. apply map_ext. intros r.
    destruct (r_id r =? q_id q); reflexivity. }
  destruct (isCorrect q (selectedAnswers render)); simpl.
  - split; [apply (Hids (fun r => Z.max (jsSub (r_reoccurrences r) 1) 0))|].
    tauto.
  - split; [apply (Hids (fun r => jsAdd (r_reoccurrences r)
                          (wrong_answer_reoccurrences (userSettings render))))|].
    tauto.
Qed.

(** [checkAnswer], from whichever render it is called, keeps the questions
    of the reoccurrence list and their order, the current question, the
    live selection and the finished flag.  While the counters are safe
    integers no counter goes down, and together they grow by one when the
    check takes place (the checked flag of the render unset, a current
    question in the ref) and by nothing otherwise. *)
Theorem checkAnswer_keeps (remote : bool) (render s : State) :
  map r_id (reoccurrences (fst (checkAnswer remote render s)))
    = map r_id (reoccurrences s) /\
  currentQuestion (fst (checkAnswer remote render s)) = currentQuestion s /\
  selectedAnswers (fst (checkAnswer remote render s)) = selectedAnswers s /\
  isQuizFinished (fst (checkAnswer remote render s)) = isQuizFinished s /\
  (safeCounters s ->
   correctAnswersCount s
     <= correctAnswersCount (fst (checkAnswer remote render s)) /\
   wrongAnswersCount s
     <= wrongAnswersCount (fst (checkAnswer remote render s)) /\
   correctAnswersCount (fst (checkAnswer remote render s))
   + wrongAnswersCount (fst (checkAnswer remote render s))
   = correctAnswersCount s + wrongAnswersCount s
     + answersCounted render s).
Proof.
  destruct (checkAnswer_frame remote render s) as (H1 & H2 & H3 & H4 & _).
  split; [exact H1|]. split; [exact H2|]. split; [exact H3|].
  split; [exact H4|].
  intros (Hsc & Hsw). unfold answersCounted.
  destruct (questionChecked render) eqn:Hc.
  { rewrite checkAnswer_skipped by now left. simpl. lia. }
  destruct (currentQuestionRef s) as [q|] eqn:Hq.
  2:{ rewrite checkAnswer_skipped by now right. simpl. lia. }
  rewrite (checkAnswer_takes_place remote render s q Hc Hq).
  destruct (isCorrect q (selectedAnswers render)); simpl;
    (rewrite jsAdd_one by assumption); lia.
Qed.

Lemma checkAnswer_keeps_witness :
  correctAnswersCount
    (fst (checkAnswer true mountRender Sample.hostChecked))
  + wrongAnswersCount
      (fst (checkAnswer true mountRender Sample.hostChecked))
  = correctAnswersCount Sample.hostChecked
    + wrongAnswersCount Sample.hostChecked + 1.
Proof.
  assert (Hsafe : safeCounters Sample.hostChecked).
  { unfold safeCounters, safeInteger. repeat split. }
  destruct (checkAnswer_keeps true mountRender Sample.hostChecked)
    as (_ & _ & _ & _ & H).
  destruct (H Hsafe) as (_ & _ & Hsum). exact Hsum.
Defined.

(** ** The verdict of a check triggered by a peer *)

Lemma isCorrect_empty (q : Question) :
  isCorrect q [] = true <-> correctIndices q = [].
Proof.
  rewrite isCorrect_spec. split.
  - intros [Hlen _]. destruct (correctIndices q); [reflexivity|discriminate].
  - intros ->. split; [reflexivity|]. intros i [].
Qed.

(** A check triggered by an [answer_checked] message, on a host or on a
    client, judges the [selectedAnswers] cell of the render that registered
    the handler, not the selection of the device, and uses the penalty of
    that render.  With the cell empty and the checked flag of the render
    unset, as in the mount render, the answer is counted as correct exactly
    when the current question has no correct answer; otherwise it is counted
    as wrong and the count of the question grows by the penalty of the
    render.  Counters and counts are safe integers here. *)
Theorem remote_check_judges_render_selection (asHost : bool)
  (render : State) (conn : DataConnection) (s : State) (q : Question) :
  questionChecked render = false ->
  selectedAnswers render = [] ->
  currentQuestionRef s = Some q ->
  safeScore (wrong_answer_reoccurrences (userSettings render)) s ->
  exists s',
    receive asHost render conn answer_checked s = Some s' /\
    questionChecked s' = true /\
    selectedAnswers s' = selectedAnswers s /\
    (correctIndices q = [] ->
       correctAnswersCount s' = correctAnswersCount s + 1 /\
       wrongAnswersCount s' = wrongAnswersCount s /\
       countsUpdated (fun n => Z.max (n - 1) 0) (q_id q)
                     (reoccurrences s) (reoccurrences s')) /\
    (correctIndices q <> [] ->
       wrongAnswersCount s' = wrongAnswersCount s + 1 /\
       correctAnswersCount s' = correctAnswersCount s /\
       countsUpdated
         (fun n => n + wrong_answer_reoccurrences (userSettings render))
         (q_id q) (reoccurrences s) (reoccurrences s')).
Proof.
  intros Hc Hsel Hq Hsafe.
  rewrite receive_answer_checked. eexists. split; [reflexivity|].
  destruct (checkAnswer_outcome true render s q Hc Hq Hsafe)
    as (Hflag & Hyes & Hno).
  destruct (checkAnswer_frame true render s) as (_ & _ & Hkeep & _).
  rewrite Hsel in Hyes, Hno.
  split; [exact Hflag|]. split; [exact Hkeep|]. split.
  - intros Hnone. apply Hyes. now apply isCorrect_empty.
  - intros Hsome. apply Hno.
    destruct (isCorrect q []) eqn:E; [|reflexivity].
    apply isCorrect_empty in E. contradiction.
Qed.

Lemma remote_check_judges_render_selection_witness :
  isCorrect Sample.q1 (selectedAnswers Sample.host) = true /\
  exists s',
    receive true mountRender Sample.connA answer_checked Sample.host
      = Some s' /\
    wrongAnswersCount s' = 1 /\
    correctAnswersCount s' = 0.
Proof.
  split; [reflexivity|].
  assert (Hsafe : safeScore
                    (wrong_answer_reoccurrences (userSettings mountRender))
                    Sample.host).
  { unfold safeScore, safeCounters, safeInteger.
    split; [repeat split|]. repeat constructor. }
  destruct (remote_check_judges_render_selection true mountRender
              Sample.connA Sample.host Sample.q1
              eq_refl eq_refl eq_refl Hsafe)
    as (s' & Hr & _ & _ & _ & Hno).
  exists s'. split; [exact Hr|].
  assert (Hne : correctIndices Sample.q1 <> []) by discriminate.
  destruct (Hno Hne) as (Hw & Hcc & _). split; [exact Hw | exact Hcc].
Defined.

(** ** Selecting answers *)

(** The selection callback never touches the current question or the
    checked flag.  For a question that is not [multiple] it keeps only the
    first index of the new selection; otherwise, and with no current
    question, it takes the new selection as it is.  Whatever it sends is a
    [question_update] with the current question and the selection it has
    just installed, to an open connection; an empty selection is never
    sent. *)
Theorem questionCard_selection (newSelected : list Z) (s : State) :
  currentQuestion (fst (questionCard_setSelectedAnswers newSelected s))
    = currentQuestion s /\
  questionChecked (fst (questionCard_setSelectedAnswers newSelected s))
    = questionChecked s /\
  selectedAnswers (fst (questionCard_setSelectedAnswers newSelected s))
    = match currentQuestion s with
      | Some q => if multiple q then newSelected else firstn 1 newSelected
      | None => newSelected
      end /\
  forall e, In e (snd (questionCard_setSelectedAnswers newSelected s)) ->
    newSelected <> [] /\
    exists q c,
      currentQuestion s = Some q /\
      e = Send c (question_update q
                    (selectedAnswers
                       (fst (questionCard_setSelectedAnswers newSelected s))))
      /\ In c (peerConnections s) /\ open c = true.
Proof.
  unfold questionCard_setSelectedAnswers.
  destruct (currentQuestion s) as [q|] eqn:Hq; simpl.
  - destruct (multiple q); simpl.
    + rewrite Hq. repeat split; auto; destruct newSelected as [|x l];
        simpl in *; try contradiction; try discriminate.
      apply In_sendToAllPeers in H. destruct H as [c [-> [Hin Ho]]].
      exists q, c. auto.
    + destruct newSelected as [|x l]; simpl; rewrite Hq.
      * repeat split; auto. contradiction.
      * repeat split; auto; try discriminate.
        apply In_sendToAllPeers in H. destruct H as [c [-> [Hin Ho]]].
        exists q, c. auto.
  - rewrite Hq. repeat split; auto; contradiction.
Qed.

(** A device that handles, as host or as client, a message sent by the
    selection callback ends with the sender's new selection and the sender's
    current question, and with its checked flag cleared. *)
Theorem selection_replicated (asHost : bool) (render : State)
  (conn c : DataConnection) (newSelected : list Z) (s r : State)
  (m : PeerMessage) :
  In (Send c m) (snd (questionCard_setSelectedAnswers newSelected s)) ->
  exists r',
    receive asHost render conn m r = Some r' /\
    selectedAnswers r'
      = selectedAnswers (fst (questionCard_setSelectedAnswers newSelected s))
    /\ currentQuestion r' = currentQuestion s /\
    questionChecked r' = false /\
    sameScore r' r.
Proof.
  intros Hin.
  destruct (questionCard_selection newSelected s) as (_ & _ & _ & Hsend).
  destruct (Hsend _ Hin) as (_ & q & c' & Hq & Heq & _).
  inversion Heq; subst. rewrite Hq.
  eexists. split.
  - unfold receive. destruct asHost; simpl; reflexivity.
  - simpl. repeat split; reflexivity.
Qed.

Lemma selection_replicated_witness :
  exists r',
    receive true mountRender Sample.hostConn
            (question_update Sample.q1 [1]) Sample.host = Some r' /\
    selectedAnswers r' = [1] /\ currentQuestion r' = Some Sample.q1.
Proof.
  destruct (selection_replicated true mountRender Sample.hostConn
              Sample.hostConn
              [1; 0] Sample.client Sample.host
              (question_update Sample.q1 [1]) (or_introl eq_refl))
    as (r' & Hr & Hs & Hq & _).
  exists r'. split; [exact Hr|]. split; [exact Hs | exact Hq].
Defined.

(** ** Moving to the next question *)

Lemma saveProgress_sends_nothing (quizId : string) (s : State)
  (c : DataConnection) (m : PeerMessage) :
  ~ In (Send c m) (saveProgress quizId s).
Proof.
  unfold saveProgress. destruct (currentQuestion s); [|tauto].
  destruct (isQuizFinished s); [tauto|].
  destruct (_ && _); simpl; intros H; intuition discriminate.
Qed.

Lemma pickRandomQuestion_frame (quizId : string) (rng : Random)
  (quizData : Quiz) (R : list Reoccurrence) (s st st' : State)
  (effs : list Effect) (ret : option Question) :
  pickRandomQuestion quizId rng quizData R s st = Some (st', effs, ret) ->
  currentQuestion st' = ret /\
  sameScore st' st /\
  selectedAnswers st' = selectedAnswers st /\
  questionChecked st' = questionChecked st /\
  studyTime st' = studyTime st /\
  startTimeRef st' = startTimeRef st /\
  quiz st' = quiz st /\
  peerConnections st' = peerConnections st /\
  (forall c m, ~ In (Send c m) effs) /\
  (forall q, ret = Some q ->
     effs = [] /\ isQuizFinished st' = false /\
     exists q0, In q0 (questions quizData) /\ presents (sortRandom rng) q q0).
Proof.
  unfold pickRandomQuestion, sameScore.
  destruct (Nat.eqb _ 0).
  { intros H. inversion H; subst. simpl. repeat split; auto.
    - intros c m. apply saveProgress_sends_nothing.
    - discriminate.
    - discriminate.
    - discriminate. }
  destruct (_ <? 0); [discriminate|].
  destruct (nth_error _ _) as [r|]; [|discriminate].
  destruct (find _ _) as [q0|] eqn:Hf; intros H; inversion H; subst; simpl.
  - apply find_some in Hf. destruct Hf as [Hin _].
    repeat split; auto; try (inversion H0; subst; reflexivity).
    inversion H0; subst. exists q0. split; [exact Hin|]. repeat split.
  - repeat split; auto; discriminate.
Qed.

Lemma pickRandomQuestion_returns (quizId : string) (rng : Random)
  (quizData : Quiz) (R : list Reoccurrence) (s st : State) :
  random_in_unit_interval rng ->
  exists res, pickRandomQuestion quizId rng quizData R s st = Some res.
Proof.
  intros Hrng. unfold pickRandomQuestion.
  set (available := filter (fun r => 0 <? r_reoccurrences r) R).
  destruct (Nat.eqb_spec (List.length available) 0); [eauto|].
  destruct (random_index_in_range rng (List.length available) Hrng)
    as [Hlo Hhi]; [lia|].
  replace (_ <? 0) with false by (symmetry; apply Z.ltb_ge; lia).
  destruct (nth_error available _) as [r|] eqn:Hnth.
  - destruct (find _ _); eauto.
  - apply nth_error_None in Hnth. lia.
Qed.

Lemma nextQuestion_frame_aux (quizId : string) (rng : Random) (s s' : State)
  (quizData : Quiz) (effs : list Effect) :
  quiz s = Some quizData ->
  nextQuestion quizId rng s = Some (s', effs) ->
  selectedAnswers s' = [] /\ questionChecked s' = false /\ sameScore s' s.
Proof.
  intros Hquiz. unfold nextQuestion. rewrite Hquiz.
  destruct (pickRandomQuestion quizId rng quizData (reoccurrences s) s s)
    as [[[s1 e1] ret]|] eqn:Hp; [|discriminate].
  intros H. inversion H; subst; clear H.
  destruct (pickRandomQuestion_frame _ _ _ _ _ _ _ _ _ Hp)
    as (_ & Hscore & _).
  split; [reflexivity|]. split; [reflexivity|]. exact Hscore.
Qed.

(** When a quiz is loaded and [nextQuestion] returns, the selection is
    empty, the question unchecked, and counters and reoccurrence list are
    untouched.  It sends a message exactly when it has a new current
    question: a [question_update] with that question and an empty selection
    to every open connection.  A device that handles such a message, as host
    or as client, ends with the same current question, selection and checked
    flag as the sender. *)
Theorem nextQuestion_result (quizId : string) (rng : Random) (s s' : State)
  (quizData : Quiz) (effs : list Effect) :
  quiz s = Some quizData ->
  nextQuestion quizId rng s = Some (s', effs) ->
  selectedAnswers s' = [] /\
  questionChecked s' = false /\
  sameScore s' s /\
  (forall c m,
     In (Send c m) effs <->
     exists q, currentQuestion s' = Some q /\ m = question_update q [] /\
               In c (peerConnections s) /\ open c = true) /\
  (forall asHost render conn c m r,
     In (Send c m) effs ->
     exists r',
       receive asHost render conn m r = Some r' /\
       currentQuestion r' = currentQuestion s' /\
       selectedAnswers r' = selectedAnswers s' /\
       questionChecked r' = questionChecked s').
Proof.
  intros Hquiz. unfold nextQuestion. rewrite Hquiz.
  destruct (pickRandomQuestion quizId rng quizData (reoccurrences s) s s)
    as [[[s1 e1] ret]|] eqn:Hp; [|discriminate].
  intros H. inversion H; subst; clear H.
  destruct (pickRandomQuestion_frame _ _ _ _ _ _ _ _ _ Hp)
    as (Hcur & Hscore & _ & _ & _ & _ & _ & _ & Hnosend & _).
  assert (Hsends : forall c m,
     In (Send c m)
        (e1 ++ match ret with
               | Some q => sendToAllPeers s (question_update q [])
               | None => []
               end) <->
     exists q, ret = Some q /\ m = question_update q [] /\
               In c (peerConnections s) /\ open c = true).
  { intros c m. rewrite in_app_iff. split.
    - intros [Hin|Hin]; [now apply Hnosend in Hin|].
      destruct ret as [q|]; [|contradiction].
      apply In_sendToAllPeers in Hin.
      destruct Hin as [c' [Heq [Hin Ho]]]. inversion Heq; subst.
      exists q. auto.
    - intros [q [-> [-> [Hin Ho]]]]. right.
      apply In_sendToAllPeers. exists c. auto. }
  simpl. rewrite Hcur.
  split; [reflexivity|]. split; [reflexivity|]. split; [exact Hscore|].
  split; [exact Hsends|].
  intros asHost render conn c m r Hin. apply Hsends in Hin.
  destruct Hin as [q [-> [-> _]]].
  eexists. split.
  - unfold receive. destruct asHost; simpl; reflexivity.
  - simpl. repeat split; reflexivity.
Qed.

Lemma nextQuestion_result_witness :
  exists s' effs,
    nextQuestion "quiz" Sample.rng0 Sample.host = Some (s', effs) /\
    selectedAnswers s' = [] /\
    In (Send Sample.connB (question_update Sample.q1 [])) effs.
Proof.
  do 2 eexists. split; [reflexivity|].
  destruct (nextQuestion_result "quiz" Sample.rng0 Sample.host _
              Sample.theQuiz _ eq_refl eq_refl)
    as (Hsel & _ & _ & Hsend & _).
  split; [exact Hsel|]. apply Hsend.
  exists Sample.q1. repeat split. simpl. tauto.
Defined.

(** The action button works in two steps.  On an unchecked question, with
    counters that are safe integers, it checks the answer: the question
    becomes checked and exactly one answer is added to the counters.
    Pressed again, it moves on: the question is unchecked, the selection
    empty, and counters and reoccurrence list are those the check left. *)
Theorem nextAction_check_then_advance (quizId : string) (rng1 rng2 : Random)
  (s : State) (quizData : Quiz) (q : Question) :
  questionChecked s = false ->
  currentQuestionRef s = Some q ->
  quiz s = Some quizData ->
  safeCounters s ->
  random_in_unit_interval rng2 ->
  exists s1 e1 s2 e2,
    nextAction quizId rng1 s = Some (s1, e1) /\
    questionChecked s1 = true /\
    correctAnswersCount s1 + wrongAnswersCount s1
      = correctAnswersCount s + wrongAnswersCount s + 1 /\
    nextAction quizId rng2 s1 = Some (s2, e2) /\
    questionChecked s2 = false /\
    selectedAnswers s2 = [] /\
    sameScore s2 s1.
Proof.
  intros Hc Hq Hquiz (Hsc & Hsw) Hrng.
  set (s1 := fst (checkAnswer false s s)).
  assert (H1 : questionChecked s1 = true /\ quiz s1 = Some quizData /\
               correctAnswersCount s1 + wrongAnswersCount s1
               = correctAnswersCount s + wrongAnswersCount s + 1).
  { unfold s1. rewrite (checkAnswer_takes_place false s s q Hc Hq).
    destruct (isCorrect q (selectedAnswers s)); simpl;
      (rewrite jsAdd_one by assumption); repeat split; auto; lia. }
  destruct H1 as (Hc1 & Hquiz1 & Hsum).
  assert (Hnext : exists s2 e2, nextQuestion quizId rng2 s1 = Some (s2, e2)).
  { unfold nextQuestion. rewrite Hquiz1.
    destruct (pickRandomQuestion_returns quizId rng2 quizData
                (reoccurrences s1) s1 s1 Hrng) as [[[st e] ret] ->].
    eauto. }
  destruct Hnext as (s2 & e2 & Hn).
  destruct (nextQuestion_frame_aux quizId rng2 s1 s2 quizData e2 Hquiz1 Hn)
    as (Hsel & Hchk & Hscore).
  exists s1, (snd (checkAnswer false s s)), s2, e2.
  split.
  { unfold nextAction. rewrite Hc. now destruct (checkAnswer false s s). }
  split; [exact Hc1|]. split; [exact Hsum|]. split.
  { unfold nextAction. now rewrite Hc1. }
  auto.
Qed.

Lemma nextAction_check_then_advance_witness :
  exists s1 e1 s2 e2,
    nextAction "quiz" Sample.rng0 Sample.session = Some (s1, e1) /\
    questionChecked s1 = true /\
    correctAnswersCount s1 + wrongAnswersCount s1 = 1 /\
    nextAction "quiz" Sample.rng0 s1 = Some (s2, e2) /\
    questionChecked s2 = false.
Proof.
  assert (Hr : random_in_unit_interval Sample.rng0).
  { unfold random_in_unit_interval. simpl. lia. }
  assert (Hsafe : safeCounters Sample.session).
  { unfold safeCounters, safeInteger. repeat split. }
  destruct (nextAction_check_then_advance "quiz" Sample.rng0 Sample.rng0
              Sample.session Sample.theQuiz Sample.q1
              eq_refl eq_refl eq_refl Hsafe Hr)
    as (s1 & e1 & s2 & e2 & H1 & H2 & H3 & H4 & H5 & _).
  exists s1, e1, s2, e2. repeat split; assumption.
Defined.

(** ** Saved progress *)



Lemma find_by_id (l : list Question) (id : Z) :
  (exists q0, In q0 l /\ q_id q0 = id) ->
  exists q1, find (fun q => q_id q =? id) l = Some q1 /\
             In q1 l /\ q_id q1 = id.
Proof.
  intros [q0 [Hin Hid]].
  destruct (find (fun q => q_id q =? id) l) as [q1|] eqn:Hf.
  - exists q1. apply find_some in Hf. destruct Hf as [H1 H2].
    apply Z.eqb_eq in H2. auto.
  - apply find_none with (x := q0) in Hf; [|exact Hin].
    apply Z.eqb_neq in Hf. contradiction.
Qed.



(** When the saved current question is still in the quiz,
    [applyLoadedProgress] presents it, with its answers reordered, and sends
    or stores nothing.  It marks the quiz finished when no saved count is
    above zero, and in that case the question stays on the page; it never
    clears a finished flag that is already set. *)
Theorem applyLoadedProgress_found (quizId : string) (rng : Random)
  (quizData : Quiz) (p : Progress) (s st : State) (q0 : Question) :
  find (fun q => q_id q =? current_question p) (questions quizData)
    = Some q0 ->
  exists st' shown,
    applyLoadedProgress quizId rng quizData p s st = Some (st', []) /\
    currentQuestion st' = Some shown /\
    presents (sortRandom rng) shown q0 /\
    (isQuizFinished st' = true <->
     isQuizFinished st = true \/
     forall r, In r (p_reoccurrences p) -> r_reoccurrences r <= 0).
Proof.
  intros Hf. unfold applyLoadedProgress. rewrite Hf.
  destruct (existsb (fun r => 0 <? r_reoccurrences r) (p_reoccurrences p))
    eqn:He.
  - do 2 eexists. split; [reflexivity|]. split; [reflexivity|].
    split; [repeat split|]. simpl.
    apply existsb_exists in He. destruct He as [r [Hr Hpos]].
    apply Z.ltb_lt in Hpos. split; [tauto|].
    intros [H|H]; [exact H|]. specialize (H r Hr). lia.
  - do 2 eexists. split; [reflexivity|]. split; [reflexivity|].
    split; [repeat split|]. simpl. split; [|reflexivity].
    intros _. right. intros r Hr.
    destruct (Z.ltb_spec 0 (r_reoccurrences r)) as [Hlt|Hge]; [|lia].
    assert (Ht : existsb (fun r => 0 <? r_reoccurrences r)
                         (p_reoccurrences p) = true).
    { apply existsb_exists. exists r. split; [exact Hr|].
      now apply Z.ltb_lt. }
    congruence.
Qed.

Lemma applyLoadedProgress_found_witness :
  exists st' shown,
    applyLoadedProgress "quiz" Sample.rng0 Sample.theQuiz
      (mkProgress 2 5 1 30 [mkReoccurrence 1 0; mkReoccurrence 2 0])
      Sample.session Sample.session = Some (st', []) /\
    currentQuestion st' = Some shown /\
    q_id shown = 2 /\
    isQuizFinished st' = true.
Proof.
  destruct (applyLoadedProgress_found "quiz" Sample.rng0 Sample.theQuiz
              (mkProgress 2 5 1 30 [mkReoccurrence 1 0; mkReoccurrence 2 0])
              Sample.session Sample.session Sample.q2 eq_refl)
    as (st' & shown & H1 & H2 & H3 & H4).
  exists st', shown. split; [exact H1|]. split; [exact H2|].
  split; [apply H3|]. apply H4. right. simpl.
  intros r [<-|[<-|[]]]; simpl; lia.
Defined.

(** ** Presenting a question *)

Lemma pick_presents_aux (quizId : string) (rng : Random) (quizData : Quiz)
  (R : list Reoccurrence) (s st : State) :
  random_in_unit_interval rng ->
  (exists r, In r R /\ 0 < r_reoccurrences r) ->
  (forall r, In r R -> 0 < r_reoccurrences r ->
     exists q0, In q0 (questions quizData) /\ q_id q0 = r_id r) ->
  exists st' q q0,
    pickRandomQuestion quizId rng quizData R s st = Some (st', [], Some q) /\
    st' = setIsQuizFinished false (setCurrentQuestion (Some q) st) /\
    In q0 (questions quizData) /\
    presents (sortRandom rng) q q0.
Proof.
  intros Hrng [r0 [Hr0 Hpos0]] Hknown. unfold pickRandomQuestion.
  set (available := filter (fun r => 0 <? r_reoccurrences r) R).
  assert (Hin0 : In r0 available).
  { apply filter_In. split; [exact Hr0 | now apply Z.ltb_lt]. }
  destruct (Nat.eqb_spec (List.length available) 0) as [He|Hne].
  { destruct available; [contradiction | discriminate]. }
  destruct (random_index_in_range rng (List.length available) Hrng)
    as [Hlo Hhi]; [lia|].
  replace (_ <? 0) with false by (symmetry; apply Z.ltb_ge; lia).
  destruct (nth_error available _) as [r|] eqn:Hnth.
  2:{ apply nth_error_None in Hnth. lia. }
  apply nth_error_In, filter_In in Hnth. destruct Hnth as [Hr Hpos].
  apply Z.ltb_lt in Hpos.
  destruct (find_by_id _ _ (Hknown r Hr Hpos)) as (q1 & -> & Hin1 & _).
  do 3 eexists. split; [reflexivity|]. split; [reflexivity|].
  split; [exact Hin1|]. repeat split.
Qed.

(** When some count of [R] is above zero and every such entry names a
    question of the quiz, [pickRandomQuestion] always presents a question:
    it returns a question of the quiz with its answers reordered, makes it
    the current question, clears the finished flag, and neither stores nor
    sends anything. *)
Theorem pickRandomQuestion_presents (quizId : string) (rng : Random)
  (quizData : Quiz) (R : list Reoccurrence) (s st : State) :
  random_in_unit_interval rng ->
  (exists r, In r R /\ 0 < r_reoccurrences r) ->
  (forall r, In r R -> 0 < r_reoccurrences r ->
     exists q0, In q0 (questions quizData) /\ q_id q0 = r_id r) ->
  exists st' q q0,
    pickRandomQuestion quizId rng quizData R s st = Some (st', [], Some q) /\
    currentQuestion st' = Some q /\
    isQuizFinished st' = false /\
    In q0 (questions quizData) /\
    presents (sortRandom rng) q q0.
Proof.
  intros Hrng Hsome Hknown.
  destruct (pick_presents_aux quizId rng quizData R s st Hrng Hsome Hknown)
    as (st' & q & q0 & Hp & -> & Hin & Hpres).
  eexists. exists q, q0. split; [exact Hp|].
  split; [reflexivity|]. split; [reflexivity|]. split; [exact Hin|].
  exact Hpres.
Qed.

Lemma pickRandomQuestion_presents_witness :
  exists st' q q0,
    pickRandomQuestion "quiz" Sample.rng0 Sample.theQuiz
      [mkReoccurrence 1 0; mkReoccurrence 2 3] Sample.session Sample.session
      = Some (st', [], Some q) /\
    currentQuestion st' = Some q /\
    isQuizFinished st' = false /\
    In q0 (questions Sample.theQuiz) /\
    presents (sortRandom Sample.rng0) q q0.
Proof.
  apply (pickRandomQuestion_presents "quiz" Sample.rng0 Sample.theQuiz
           [mkReoccurrence 1 0; mkReoccurrence 2 3]
           Sample.session Sample.session).
  - unfold random_in_unit_interval. simpl. lia.
  - exists (mkReoccurrence 2 3). simpl. split; [tauto | lia].
  - intros r Hr Hpos. simpl in Hr. destruct Hr as [<-|[<-|[]]].
    + simpl in Hpos. lia.
    + exists Sample.q2. simpl. tauto.
Defined.

(** When the entries of [R] with a count above zero all name questions the
    quiz does not contain, [pickRandomQuestion] leaves the page without a
    current question and does not mark the quiz finished: the finished flag
    stays as it was, and nothing is returned, stored or sent. *)
Theorem pickRandomQuestion_unknown_id (quizId : string) (rng : Random)
  (quizData : Quiz) (R : list Reoccurrence) (s st : State) :
  random_in_unit_interval rng ->
  (exists r, In r R /\ 0 < r_reoccurrences r) ->
  (forall r q0, In r R -> 0 < r_reoccurrences r ->
     In q0 (questions quizData) -> q_id q0 <> r_id r) ->
  pickRandomQuestion quizId rng quizData R s st
    = Some (setCurrentQuestion None st, [], None) /\
  isQuizFinished (setCurrentQuestion None st) = isQuizFinished st.
Proof.
  intros Hrng [r0 [Hr0 Hpos0]] Hunknown. split; [|reflexivity].
  unfold pickRandomQuestion.
  set (available := filter (fun r => 0 <? r_reoccurrences r) R).
  assert (Hin0 : In r0 available).
  { apply filter_In. split; [exact Hr0 | now apply Z.ltb_lt]. }
  destruct (Nat.eqb_spec (List.length available) 0) as [He|Hne].
  { destruct available; [contradiction | discriminate]. }
  destruct (random_index_in_range rng (List.length available) Hrng)
    as [Hlo Hhi]; [lia|].
  replace (_ <? 0) with false by (symmetry; apply Z.ltb_ge; lia).
  destruct (nth_error available _) as [r|] eqn:Hnth.
  2:{ apply nth_error_None in Hnth. lia. }
  apply nth_error_In, filter_In in Hnth. destruct Hnth as [Hr Hpos].
  apply Z.ltb_lt in Hpos.
  destruct (find _ _) as [q1|] eqn:Hf; [|reflexivity].
  apply find_some in Hf. destruct Hf as [Hin1 Heq].
  apply Z.eqb_eq in Heq. exfalso. exact (Hunknown r q1 Hr Hpos Hin1 Heq).
Qed.

Lemma pickRandomQuestion_unknown_id_witness :
  pickRandomQuestion "quiz" Sample.rng0 Sample.theQuiz
    [mkReoccurrence 8 1] Sample.session Sample.session
  = Some (setCurrentQuestion None Sample.session, [], None).
Proof.
  apply (pickRandomQuestion_unknown_id "quiz" Sample.rng0 Sample.theQuiz
           [mkReoccurrence 8 1] Sample.session Sample.session).
  - unfold random_in_unit_interval. simpl. lia.
  - exists (mkReoccurrence 8 1). simpl. split; [tauto | lia].
  - intros r q0 Hr _ Hq. simpl in Hr, Hq.
    destruct Hr as [<-|[]]. destruct Hq as [<-|[<-|[]]]; simpl; lia.
Defined.

Lemma fresh_known (quizData : Quiz) (settings : UserSettings)
  (r : Reoccurrence) :
  In r (freshReoccurrences quizData settings) ->
  r_reoccurrences r = initial_reoccurrences settings /\
  exists q0, In q0 (questions quizData) /\ q_id q0 = r_id r.
Proof.
  unfold freshReoccurrences. rewrite in_map_iff.
  intros [q0 [<- Hin]]. simpl. eauto.
Qed.

Lemma fresh_some (quizData : Quiz) (settings : UserSettings) :
  questions quizData <> [] ->
  0 < initial_reoccurrences settings ->
  exists r, In r (freshReoccurrences quizData settings)
            /\ 0 < r_reoccurrences r.
Proof.
  unfold freshReoccurrences. intros Hne Hpos.
  destruct (questions quizData) as [|q0 l]; [contradiction|].
  eexists. split; [now left | exact Hpos].
Qed.

(** A session that starts without saved progress, or with saved progress
    whose current question is 0, gets one entry per quiz question, in quiz
    order, each with the initial count from the fetched settings.  With a
    quiz that has questions and an initial count above zero, a question of
    the quiz is presented and the quiz is not finished. *)
Theorem fresh_start (quizId : string) (rng : Random) (quizData : Quiz)
  (settings : UserSettings) (saved : option Progress) (s st : State) :
  random_in_unit_interval rng ->
  questions quizData <> [] ->
  0 < initial_reoccurrences settings ->
  (saved = None \/ exists p, saved = Some p /\ current_question p = 0) ->
  exists st' q q0,
    initializeProgress quizId rng quizData settings saved s st
      = Some (st', []) /\
    map r_id (reoccurrences st') = map q_id (questions quizData) /\
    Forall (fun r => r_reoccurrences r = initial_reoccurrences settings)
           (reoccurrences st') /\
    currentQuestion st' = Some q /\
    isQuizFinished st' = false /\
    In q0 (questions quizData) /\
    presents (sortRandom rng) q q0 /\
    correctAnswersCount st' = correctAnswersCount st /\
    wrongAnswersCount st' = wrongAnswersCount st.
Proof.
  intros Hrng Hne Hpos Hsaved.
  destruct (pick_presents_aux quizId rng quizData
              (freshReoccurrences quizData settings) s
              (setReoccurrences (freshReoccurrences quizData settings) st)
              Hrng (fresh_some quizData settings Hne Hpos))
    as (st' & q & q0 & Hp & -> & Hin & Hpres).
  { intros r Hr _. apply (fresh_known quizData settings r Hr). }
  assert (Hinit : initializeProgress quizId rng quizData settings saved s st
                  = Some (setIsQuizFinished false
                            (setCurrentQuestion (Some q)
                               (setReoccurrences
                                  (freshReoccurrences quizData settings) st)),
                          [])).
  { unfold initializeProgress.
    destruct Hsaved as [->|[p [-> Hz]]]; [|rewrite Hz; simpl];
      now rewrite Hp. }
  do 3 eexists. split; [exact Hinit|]. simpl.
  split; [unfold freshReoccurrences; now rewrite map_map|].
  split.
  { apply Forall_forall. intros r Hr.
    apply (fresh_known quizData settings r Hr). }
  split; [reflexivity|]. split; [reflexivity|]. split; [exact Hin|].
  split; [exact Hpres|]. split; reflexivity.
Qed.

Lemma fresh_start_witness :
  exists st' q q0,
    initializeProgress "quiz" Sample.rng0 Sample.theQuiz Sample.settings
      (Some (mkProgress 0 9 9 9 [])) Sample.session Sample.session
      = Some (st', []) /\
    map r_id (reoccurrences st') = [1; 2] /\
    currentQuestion st' = Some q /\
    In q0 (questions Sample.theQuiz) /\
    q_id q = q_id q0.
Proof.
  assert (Hr : random_in_unit_interval Sample.rng0).
  { unfold random_in_unit_interval. simpl. lia. }
  assert (Hne : questions Sample.theQuiz <> []) by discriminate.
  assert (Hpos : 0 < initial_reoccurrences Sample.settings)
    by (simpl; lia).
  destruct (fresh_start "quiz" Sample.rng0 Sample.theQuiz Sample.settings
              (Some (mkProgress 0 9 9 9 [])) Sample.session Sample.session
              Hr Hne Hpos
              (or_intror (ex_intro _ (mkProgress 0 9 9 9 [])
                                   (conj eq_refl eq_refl))))
    as (st' & q & q0 & H1 & H2 & _ & H4 & _ & H6 & H7 & _).
  exists st', q, q0. split; [exact H1|]. split; [exact H2|].
  split; [exact H4|]. split; [exact H6 | apply H7].
Defined.

(** Resetting the progress of a loaded quiz that has questions, with an
    initial count above zero, removes the stored progress (and asks the
    server to delete it when syncing is on) and does nothing else outward;
    it leaves both counters and the study time at zero, anchors the start
    time at the moment of the reset, installs a fresh reoccurrence list and
    presents a question of the quiz.  The selection and the checked flag are
    left as they were. *)
Theorem resetProgress_restarts (quizId : string) (rng : Random) (now : Z)
  (s : State) (quizData : Quiz) :
  random_in_unit_interval rng ->
  quiz s = Some quizData ->
  questions quizData <> [] ->
  0 < initial_reoccurrences (userSettings s) ->
  exists s' q q0,
    resetProgress quizId rng now s
      = Some (s', LocalStorageRemove (progressKey quizId) ::
                  (if sync_progress (userSettings s)
                   then [ServerDelete] else [])) /\
    correctAnswersCount s' = 0 /\
    wrongAnswersCount s' = 0 /\
    studyTime s' = 0 /\
    startTimeRef s' = now /\
    studyTime (updateStudyTime now s') = 0 /\
    reoccurrences s' = freshReoccurrences quizData (userSettings s) /\
    isQuizFinished s' = false /\
    currentQuestion s' = Some q /\
    In q0 (questions quizData) /\
    presents (sortRandom rng) q q0 /\
    selectedAnswers s' = selectedAnswers s /\
    questionChecked s' = questionChecked s.
Proof.
  intros Hrng Hquiz Hne Hpos. unfold resetProgress. rewrite Hquiz.
  match goal with
  | |- context [pickRandomQuestion quizId rng quizData ?R s ?st] =>
      destruct (pick_presents_aux quizId rng quizData R s st Hrng
                  (fresh_some quizData (userSettings s) Hne Hpos))
        as (st' & q & q0 & Hp & -> & Hin & Hpres)
  end.
  { intros r Hr _. apply (fresh_known quizData (userSettings s) r Hr). }
  rewrite Hp. do 3 eexists. rewrite app_nil_r.
  split; [reflexivity|]. simpl.
  do 4 (split; [reflexivity|]).
  split; [unfold updateStudyTime; simpl; now rewrite Z.sub_diag|].
  do 3 (split; [reflexivity|]). split; [exact Hin|].
  split; [exact Hpres|]. split; reflexivity.
Qed.

Lemma resetProgress_restarts_witness :
  exists s' q q0,
    resetProgress "quiz" Sample.rng0 5000
                  (fst (checkAnswer false Sample.session Sample.session))
      = Some (s', [LocalStorageRemove "quiz_progress"; ServerDelete]) /\
    correctAnswersCount s' = 0 /\
    currentQuestion s' = Some q /\
    In q0 (questions Sample.theQuiz) /\
    questionChecked s' = true.
Proof.
  assert (Hr : random_in_unit_interval Sample.rng0).
  { unfold random_in_unit_interval. simpl. lia. }
  assert (Hne : questions Sample.theQuiz <> []) by discriminate.
  assert (Hpos : 0 < initial_reoccurrences
                       (userSettings (fst (checkAnswer false Sample.session Sample.session))))
    by (simpl; lia).
  destruct (resetProgress_restarts "quiz" Sample.rng0 5000
              (fst (checkAnswer false Sample.session Sample.session)) Sample.theQuiz
              Hr eq_refl Hne Hpos)
    as (s' & q & q0 & H1 & H2 & _ & _ & _ & _ & _ & _ & H9 & H10 & _ & _
        & H13).
  exists s', q, q0. split; [exact H1|]. split; [exact H2|].
  split; [exact H9|]. split; [exact H10 | exact H13].
Defined.

(** ** What incoming messages cannot touch *)

(** Whatever message a device handles, as host or as client, its quiz,
    settings, finished flag, study time, connection list, role and peer stay
    as they are.  The current question and the selection change only on a
    [question_update].  On a host no message moves the start-time anchor,
    and only [answer_checked] can change the counters and the reoccurrence
    list: a host takes no [initial_sync] from a client. *)
Theorem messages_leave_surroundings (asHost : bool) (render : State)
  (conn : DataConnection) (data : PeerMessage) (s s' : State) :
  receive asHost render conn data s = Some s' ->
  sameSurroundings s' s /\
  ((forall q sel, data <> question_update q sel) ->
   currentQuestion s' = currentQuestion s /\
   selectedAnswers s' = selectedAnswers s) /\
  (asHost = true -> startTimeRef s' = startTimeRef s) /\
  (asHost = true -> data <> answer_checked -> sameScore s' s).
Proof.
  unfold receive.
  destruct (checkAnswer_frame true render s)
    as (_ & Hcq & Hsel & _ & Hsur & Hstart).
  destruct asHost.
  - intros H. inversion H; subst; clear H.
    assert (Hfst : fst (handlePeerDataAsHost render conn answer_checked s)
                   = fst (checkAnswer true render s)).
    { simpl. destruct (checkAnswer true render s); reflexivity. }
    destruct data; try rewrite Hfst.
    all: split; [first [exact Hsur | repeat split] |].
    all: split;
      [intros Hne;
       first [exfalso; eapply Hne; reflexivity
             | split; [first [exact Hcq | reflexivity]
                      | first [exact Hsel | reflexivity]]] |].
    all: split; [intros _; first [exact Hstart | reflexivity] |].
    all: intros _ Hne;
      first [exfalso; apply Hne; reflexivity | repeat split].
  - intros H.
    assert (Hcases :
      s' = fst (checkAnswer true render s) /\ data = answer_checked \/
      (sameSurroundings s' s /\
       ((forall q sel, data <> question_update q sel) ->
        currentQuestion s' = currentQuestion s /\
        selectedAnswers s' = selectedAnswers s))).
    { destruct data; simpl in H;
        try (destruct (peerConnections render); simpl in H; [discriminate|]);
        inversion H; subst; clear H.
      - right. split; [repeat split|]. intros _. split; reflexivity.
      - right. split; [repeat split|].
        intros Hne. exfalso. eapply Hne. reflexivity.
      - left. split; reflexivity.
      - right. split; [repeat split|]. intros _. split; reflexivity.
      - right. split; [repeat split|]. intros _. split; reflexivity.
      - right. split; [repeat split|]. intros _. split; reflexivity. }
    destruct Hcases as [[-> ->]|[H1 H2]].
    + split; [exact Hsur|]. split; [intros _; split; assumption|].
      split; intros Hf; discriminate Hf.
    + split; [exact H1|]. split; [exact H2|].
      split; intros Hf; discriminate Hf.
Qed.

Lemma messages_leave_surroundings_witness :
  sameScore
    (fst (handlePeerDataAsHost mountRender Sample.connA
            (initial_sync 1 50 60 [mkReoccurrence 1 9]) Sample.host))
    Sample.host.
Proof.
  apply (messages_leave_surroundings true mountRender Sample.connA
           (initial_sync 1 50 60 [mkReoccurrence 1 9]) Sample.host
           (fst (handlePeerDataAsHost mountRender Sample.connA
                   (initial_sync 1 50 60 [mkReoccurrence 1 9]) Sample.host))
           eq_refl); [reflexivity | discriminate].
Defined.

(** ** Reordered answers *)

Lemma mapi_from_length_correct (l : list Answer) : forall k,
  0 <= k ->
  List.length
    (filter (fun idx => negb (idx =? -1))
       (mapi_from (fun ans idx => if correct ans then idx else -1) k l))
  = List.length (filter correct l).
Proof.
  induction l as [|x l IH]; intros k Hk; simpl; [reflexivity|].
  destruct (correct x); simpl.
  - replace (negb (k =? -1)) with true
      by (symmetry; apply negb_true_iff, Z.eqb_neq; lia).
    simpl. f_equal. apply IH. lia.
  - apply IH. lia.
Qed.

Lemma filter_length_Permutation {A : Type} (f : A -> bool) (l l' : list A) :
  Permutation l l' -> List.length (filter f l) = List.length (filter f l').
Proof.
  induction 1 as [|x l l' _ IH|x y l|l l' l'' _ IH1 _ IH2]; simpl.
  - reflexivity.
  - destruct (f x); simpl; now rewrite IH.
  - destruct (f x), (f y); reflexivity.
  - now rewrite IH1.
Qed.

(** When the sort of [pickRandomQuestion] returns a permutation of its
    input, the question presented is a question of the quiz with the same
    identifier, text and kind, its answers are a permutation of the defined
    ones, and as many of them are correct. *)
Theorem picked_answers_permuted (quizId : string) (rng : Random)
  (quizData : Quiz) (R : list Reoccurrence) (s st st' : State)
  (effs : list Effect) (q : Question) :
  (forall l, Permutation (sortRandom rng l) l) ->
  pickRandomQuestion quizId rng quizData R s st = Some (st', effs, Some q) ->
  exists q0,
    In q0 (questions quizData) /\
    q_id q = q_id q0 /\ question q = question q0 /\
    multiple q = multiple q0 /\
    Permutation (answers q) (answers q0) /\
    List.length (correctIndices q) = List.length (correctIndices q0).
Proof.
  intros Hperm Hp.
  destruct (pickRandomQuestion_frame _ _ _ _ _ _ _ _ _ Hp)
    as (_ & _ & _ & _ & _ & _ & _ & _ & _ & Hret).
  destruct (Hret q eq_refl) as (_ & _ & q0 & Hin & Hid & Htext & Hmult & Hans).
  exists q0. repeat split; auto.
  - rewrite Hans. apply Hperm.
  - unfold correctIndices, mapi.
    rewrite !mapi_from_length_correct by lia.
    apply filter_length_Permutation. rewrite Hans. apply Hperm.
Qed.

Lemma picked_answers_permuted_witness :
  exists q0,
    In q0 (questions Sample.theQuiz) /\
    q_id q0 = 2 /\
    Permutation
      [mkAnswer "c" true; mkAnswer "b" false; mkAnswer "a" true]
      (answers q0).
Proof.
  assert (Hperm : forall l : list Answer, Permutation (rev l) l).
  { intros l. apply Permutation_sym, Permutation_rev. }
  destruct (picked_answers_permuted "quiz"
              (mkRandom 0 1 (@rev Answer)) Sample.theQuiz
              [mkReoccurrence 2 1] Sample.session Sample.session
              _ _ _ Hperm eq_refl)
    as (q0 & Hin & Hid & _ & _ & Hans & _).
  exists q0. split; [exact Hin|]. split; [symmetry; exact Hid | exact Hans].
Defined.
